(** * switchbot: a shallow embedding of [main.go]

    The program signs a request with HMAC-SHA256, lists the devices of a
    SwitchBot account, and prints the status of the first one.  This file
    embeds the three functions of [main.go] ([createHeaders],
    [callSwitchBotAPI], [main]) over an explicit world (environment,
    UUID source, clock, network, standard output) and proves the
    properties of the specification about them.

    Conventions.
    - A Go [string] and a Go [[]byte] are both sequences of bytes: they are
      modelled as [String.string] and [list Byte.byte], with the two
      conversions [[]byte(s)] and [string(b)] written out.
    - [map[string]string] and [map[string]interface{}] are [gmap string _].
    - [interface{}] holding decoded JSON is the inductive [json]; the nil
      interface is [JNull].
    - A [float64] is a [spec_float] (IEEE 754 binary64).
    - A request is recorded as [main.go] builds it: the URL string given
      to [http.NewRequest] and the entries given to [req.Header.Add].
      What [net/http] makes of them (the URL parsed and escaped again,
      the header names in canonical spelling) is the library's work:
      [RefURL.request_url] follows it for the URL.
    - The log [sent] has one entry per call of [client.Do]; the redirects
      the default client follows inside one call are part of that call. *)

From Stdlib Require Import ZArith String Ascii List Bool Lia.
From Stdlib Require Import Floats.SpecFloat DecimalString DecimalPos DecimalZ.
From stdpp Require Import gmap strings list fin_maps.

Set Warnings "-register-all".
Open Scope string_scope.
Open Scope Z_scope.

(** ** Bytes and strings *)

Module GoBytes.

Definition bytes := list Byte.byte.

(** [[]byte(s)] *)
Definition of_string (s : string) : bytes := list_byte_of_string s.

(** [string(b)] *)
Definition to_string (b : bytes) : string := string_of_list_byte b.

Definition byte_to_Z (b : Byte.byte) : Z := Z.of_N (Byte.to_N b).

Definition byte_of_Z (z : Z) : Byte.byte :=
  match Byte.of_N (Z.to_N (z mod 256)) with
  | Some b => b
  | None => Byte.x00
  end.

End GoBytes.

(** ** [encoding/base64]: [StdEncoding.EncodeToString] *)

Module Base64.
Import GoBytes.

Definition encodeStd : string :=
  "ABCDEFGHIJKLMNOPQRSTUVWXYZabcdefghijklmnopqrstuvwxyz0123456789+/".

Definition padChar : ascii := "="%char.

(** The character of the standard alphabet for a 6-bit value. *)
Definition enc6 (v : Z) : ascii :=
  match String.get (Z.to_nat (Z.land v 63)) encodeStd with
  | Some c => c
  | None => padChar
  end.

(** Three source bytes give four characters; a tail of one or two bytes
    is padded with [=]. *)
Fixpoint encode (src : list Z) : string :=
  match src with
  | [] => ""
  | [a] =>
      let v := Z.shiftl a 16 in
      String (enc6 (Z.shiftr v 18)) (String (enc6 (Z.shiftr v 12))
        (String padChar (String padChar "")))
  | [a; b] =>
      let v := Z.lor (Z.shiftl a 16) (Z.shiftl b 8) in
      String (enc6 (Z.shiftr v 18)) (String (enc6 (Z.shiftr v 12))
        (String (enc6 (Z.shiftr v 6)) (String padChar "")))
  | a :: b :: c :: rest =>
      let v := Z.lor (Z.lor (Z.shiftl a 16) (Z.shiftl b 8)) c in
      String (enc6 (Z.shiftr v 18)) (String (enc6 (Z.shiftr v 12))
        (String (enc6 (Z.shiftr v 6)) (String (enc6 v) (encode rest))))
  end.

Definition EncodeToString (src : bytes) : string :=
  encode (map byte_to_Z src).

End Base64.

(** ** [crypto/sha256] *)

Module Sha256.
Import GoBytes.

Definition BlockSize : Z := 64.
Definition Size : Z := 32.

Definition mask32 : Z := 0xffffffff.
Definition w32 (x : Z) : Z := Z.land x mask32.
Definition add32 (x y : Z) : Z := w32 (x + y).
Definition rotr (n x : Z) : Z :=
  Z.lor (Z.shiftr x n) (w32 (Z.shiftl x (32 - n))).
Definition not32 (x : Z) : Z := Z.lxor x mask32.

Definition Ch (x y z : Z) : Z := Z.lxor (Z.land x y) (Z.land (not32 x) z).
Definition Maj (x y z : Z) : Z :=
  Z.lxor (Z.lxor (Z.land x y) (Z.land x z)) (Z.land y z).
Definition Sigma0 (x : Z) : Z :=
  Z.lxor (Z.lxor (rotr 2 x) (rotr 13 x)) (rotr 22 x).
Definition Sigma1 (x : Z) : Z :=
  Z.lxor (Z.lxor (rotr 6 x) (rotr 11 x)) (rotr 25 x).
Definition sigma0 (x : Z) : Z :=
  Z.lxor (Z.lxor (rotr 7 x) (rotr 18 x)) (Z.shiftr x 3).
Definition sigma1 (x : Z) : Z :=
  Z.lxor (Z.lxor (rotr 17 x) (rotr 19 x)) (Z.shiftr x 10).

(** The round constants are the first 32 bits of the fractional parts of
    the cube roots of the first 64 primes, the initial state those of the
    square roots of the first 8 (FIPS 180-4, sections 4.2.2 and 5.3.3). *)
Definition is_prime (n : Z) : bool :=
  forallb (fun d => negb (n mod d =? 0))
          (map Z.of_nat (seq 2 (Z.to_nat n - 2))).

Definition primes64 : list Z :=
  firstn 64 (filter is_prime (map Z.of_nat (seq 2 400))).

(** The integer cube root, one bit at a time from bit 39 down. *)
Definition icbrt (n : Z) : Z :=
  fold_left (fun r b => if (r + 2 ^ b) ^ 3 <=? n then r + 2 ^ b else r)
            (map Z.of_nat (rev (seq 0 40))) 0.

Definition K : list Z :=
  Eval vm_compute in
    map (fun p => Z.land (icbrt (p * 2 ^ 96)) mask32) primes64.

Definition init : list Z :=
  Eval vm_compute in
    map (fun p => Z.land (Z.sqrt (p * 2 ^ 64)) mask32) (firstn 8 primes64).

(** Big-endian 32-bit words of a block. *)
Fixpoint be_words (b : list Z) : list Z :=
  match b with
  | b0 :: b1 :: b2 :: b3 :: rest =>
      Z.lor (Z.lor (Z.shiftl b0 24) (Z.shiftl b1 16))
            (Z.lor (Z.shiftl b2 8) b3) :: be_words rest
  | _ => []
  end.

(** The message schedule, most recent word first: [rev_w] holds
    [w[i-1]; w[i-2]; ...]. *)
Definition next_w (rev_w : list Z) : Z :=
  let w j := nth j rev_w 0 in
  add32 (add32 (sigma1 (w 1%nat)) (w 6%nat))
        (add32 (sigma0 (w 14%nat)) (w 15%nat)).

Fixpoint extend (n : nat) (rev_w : list Z) : list Z :=
  match n with
  | O => rev_w
  | S n' => extend n' (next_w rev_w :: rev_w)
  end.

Definition schedule (block : list Z) : list Z :=
  rev (extend 48 (rev (be_words block))).

Definition round (st : list Z) (kw : Z * Z) : list Z :=
  match st with
  | [a; b; c; d; e; f; g; h] =>
      let t1 := add32 (add32 (add32 h (Sigma1 e)) (add32 (Ch e f g) (fst kw)))
                      (snd kw) in
      let t2 := add32 (Sigma0 a) (Maj a b c) in
      [add32 t1 t2; a; b; c; add32 d t1; e; f; g]
  | _ => st
  end.

Fixpoint add_state (s t : list Z) : list Z :=
  match s, t with
  | x :: s', y :: t' => add32 x y :: add_state s' t'
  | _, _ => []
  end.

Definition compress (st : list Z) (block : list Z) : list Z :=
  add_state st (fold_left round (combine K (schedule block)) st).

(** Padding: one [0x80] byte, zero bytes up to 56 modulo 64, then the
    length in bits as a 64-bit big-endian integer. *)
Definition be64 (n : Z) : list Z :=
  map (fun i => Z.land (Z.shiftr n (8 * i)) 255) [7; 6; 5; 4; 3; 2; 1; 0].

Definition pad (msg : list Z) : list Z :=
  let len := Z.of_nat (length msg) in
  msg ++ 128 :: repeat 0 (Z.to_nat ((55 - len) mod 64)) ++ be64 (8 * len).

Fixpoint blocks (fuel : nat) (st : list Z) (data : list Z) : list Z :=
  match fuel, data with
  | S fuel', _ :: _ =>
      blocks fuel' (compress st (firstn 64 data)) (skipn 64 data)
  | _, _ => st
  end.

Definition be32 (w : Z) : list Z :=
  map (fun i => Z.land (Z.shiftr w (8 * i)) 255) [3; 2; 1; 0].

Definition digest (msg : list Z) : list Z :=
  let p := pad msg in
  flat_map be32 (blocks (length p) init p).

Definition Sum256 (msg : bytes) : bytes :=
  map byte_of_Z (digest (map byte_to_Z msg)).

End Sha256.

(** ** [crypto/hmac] over SHA-256 *)

Module Hmac.
Import GoBytes.

(** [hmac.New(sha256.New, key)]: a key longer than the block size is
    hashed first; the key is then zero-padded to the block size. *)
Definition block_key (key : list Z) : list Z :=
  let k := if Z.of_nat (length key) >? Sha256.BlockSize
           then Sha256.digest key else key in
  k ++ repeat 0 (Z.to_nat Sha256.BlockSize - length k)%nat.

Definition ipad (key : list Z) : list Z := map (Z.lxor 0x36) (block_key key).
Definition opad (key : list Z) : list Z := map (Z.lxor 0x5c) (block_key key).

(** [h := hmac.New(sha256.New, key); h.Write(msg); h.Sum(nil)] *)
Definition sum (key msg : list Z) : list Z :=
  Sha256.digest (opad key ++ Sha256.digest (ipad key ++ msg)).

Definition SumSHA256 (key msg : bytes) : bytes :=
  map byte_of_Z (sum (map byte_to_Z key) (map byte_to_Z msg)).

End Hmac.

(** ** [fmt]: the verbs the program uses *)

Module Fmt.

Definition nl : string := String (ascii_of_nat 10) "".

(** [%d] on an integer. *)
Definition d (z : Z) : string := NilZero.string_of_int (Z.to_int z).

Fixpoint zeros (n : nat) : string :=
  match n with
  | O => ""
  | S n' => String "0"%char (zeros n')
  end.

(** [x * 10^prec] for [x = m * 2^e], rounded to the nearest integer,
    ties to even: the digits [strconv] keeps for [%.<prec>f]. *)
Definition scaled (prec : nat) (m e : Z) : Z :=
  let n := m * 10 ^ Z.of_nat prec in
  if 0 <=? e then n * 2 ^ e
  else
    let den := 2 ^ (- e) in
    let q := n / den in
    let r := n mod den in
    match 2 * r ?= den with
    | Lt => q
    | Gt => q + 1
    | Eq => if Z.even q then q else q + 1
    end.

(** The digits of [q / 10^prec] with [prec] digits after the point. *)
Definition fixed (prec : nat) (q : Z) : string :=
  let p := 10 ^ Z.of_nat prec in
  let frac := d (q mod p) in
  d (q / p) ++
  match prec with
  | O => ""
  | _ => "." ++ zeros (prec - String.length frac) ++ frac
  end.

Definition sign (neg : bool) : string := if neg then "-" else "".

(** [%.<prec>f] on a float64. *)
Definition f (prec : nat) (x : spec_float) : string :=
  match x with
  | S754_nan => "NaN"
  | S754_infinity s => if s then "-Inf" else "+Inf"
  | S754_zero s => sign s ++ fixed prec 0
  | S754_finite s m e => sign s ++ fixed prec (scaled prec (Zpos m) e)
  end.

End Fmt.

(** ** Decoded JSON: what [json.Unmarshal] stores in an [interface{}] *)

Inductive json : Type :=
  | JNull                              (* nil *)
  | JBool (b : bool)                   (* bool *)
  | JNum (x : spec_float)              (* float64 *)
  | JStr (s : string)                  (* string *)
  | JArr (l : list json)               (* []interface{} *)
  | JObj (m : gmap string json).       (* map[string]interface{} *)

Inductive GoType : Type :=
  | TBool | TFloat64 | TString | TSlice | TMap.

(** The dynamic type of an interface value; [None] for the nil interface. *)
Definition dynamic_type (v : json) : option GoType :=
  match v with
  | JNull => None
  | JBool _ => Some TBool
  | JNum _ => Some TFloat64
  | JStr _ => Some TString
  | JArr _ => Some TSlice
  | JObj _ => Some TMap
  end.

(** [m[k]] on a [map[string]interface{}]: the zero value (nil) when the
    key is absent, also when the map itself is nil. *)
Definition index (m : gmap string json) (k : string) : json :=
  default JNull (m !! k).

(** The two-result type assertions [v, ok := x.(T)]. *)
Definition as_map (v : json) : gmap string json * bool :=
  match v with JObj m => (m, true) | _ => (∅, false) end.

Definition as_string (v : json) : string * bool :=
  match v with JStr s => (s, true) | _ => ("", false) end.

Definition as_float64 (v : json) : spec_float * bool :=
  match v with JNum x => (x, true) | _ => (S754_zero false, false) end.

(** ** The world the program runs in

    The environment, the UUID source, the clock and the network are
    oracles: the world fixes what the k-th call of each returns.  Each of
    them answers: a random source that fails (on which [uuid.New] panics)
    and a server that never answers are outside the model. *)

(** A request as [callSwitchBotAPI] builds it: the method and the URL
    string given to [http.NewRequest], and the entries given to
    [req.Header.Add]. *)
Record Request : Type := mkRequest {
  rq_method : string;
  rq_url : string;
  rq_headers : gmap string string
}.

(** What [client.Do] gives back: a transport error, or a response with a
    status code and a body; reading the body yields [rs_body], or fails
    with [rs_read_err]. *)
Inductive Reply : Type :=
  | TransportError (err : string)
  | Response (StatusCode : Z) (rs_body : GoBytes.bytes)
             (rs_read_err : option string).

Record World : Type := mkWorld {
  environ : gmap string string;           (* the process environment *)
  uuid_src : nat -> string;               (* k-th result of uuid.New().String() *)
  clock_src : nat -> Z;                   (* k-th result of time.Now().UnixNano() *)
  server : nat -> Request -> Reply;       (* outcome of the k-th client.Do *)
  uuid_calls : nat;
  clock_reads : nat;
  sent : list Request;                    (* requests given to client.Do, in order *)
  closed : nat;                           (* response bodies closed *)
  stdout : list string                    (* what each fmt.Print* call wrote, in order *)
}.

(** The pure library functions [main.go] calls and this file leaves
    abstract: the JSON decoder into a [map[string]interface{}] (an error,
    or the map; the JSON text [null] leaves the map nil, which reads like
    the empty map), and the validation [http.NewRequest] performs on the
    method and the URL ([None] when the request can be built). *)
Class Platform : Type := {
  json_Unmarshal : GoBytes.bytes -> string + gmap string json;
  http_NewRequest : string -> string -> option string
}.

(** A run-time panic: the only kind [main.go] can raise by itself is a
    failed single-result type assertion. *)
Inductive Panic : Type :=
  | InterfaceConversion (dynamic : option GoType) (target : GoType).

Inductive Outcome (A : Type) : Type :=
  | Done (a : A)
  | Panicked (p : Panic).
Arguments Done {A} a.
Arguments Panicked {A} p.

Definition M (A : Type) : Type := World -> Outcome A * World.

Definition ret {A} (a : A) : M A := fun w => (Done a, w).

Definition bind {A B} (c : M A) (k : A -> M B) : M B :=
  fun w =>
    match c w with
    | (Done a, w') => k a w'
    | (Panicked p, w') => (Panicked p, w')
    end.

Definition panic {A} (p : Panic) : M A := fun w => (Panicked p, w).

Declare Scope go_scope.
Delimit Scope go_scope with go.
Notation "'let*' p ':=' c 'in' k" := (bind c (fun p => k))
  (at level 10, p pattern, c at level 100, k at level 200) : go_scope.
Open Scope go_scope.

(** *** Primitive effects *)

Definition set_stdout (out : list string) (w : World) : World :=
  mkWorld (environ w) (uuid_src w) (clock_src w) (server w)
          (uuid_calls w) (clock_reads w) (sent w) (closed w) out.

Definition set_uuid_calls (n : nat) (w : World) : World :=
  mkWorld (environ w) (uuid_src w) (clock_src w) (server w)
          n (clock_reads w) (sent w) (closed w) (stdout w).

Definition set_clock_reads (n : nat) (w : World) : World :=
  mkWorld (environ w) (uuid_src w) (clock_src w) (server w)
          (uuid_calls w) n (sent w) (closed w) (stdout w).

Definition set_sent (l : list Request) (w : World) : World :=
  mkWorld (environ w) (uuid_src w) (clock_src w) (server w)
          (uuid_calls w) (clock_reads w) l (closed w) (stdout w).

Definition set_closed (n : nat) (w : World) : World :=
  mkWorld (environ w) (uuid_src w) (clock_src w) (server w)
          (uuid_calls w) (clock_reads w) (sent w) n (stdout w).

(** [os.Getenv]: the empty string when the variable is not set. *)
Definition Getenv (key : string) : M string :=
  fun w => (Done (default "" (environ w !! key)), w).

(** One call of [fmt.Printf] or [fmt.Println], already formatted. *)
Definition print (s : string) : M unit :=
  fun w => (Done tt, set_stdout (stdout w ++ [s]) w).

Definition Println (s : string) : M unit := print (s ++ Fmt.nl).

(** [uuid.New().String()] *)
Definition uuid_New_String : M string :=
  fun w => (Done (uuid_src w (uuid_calls w)), set_uuid_calls (S (uuid_calls w)) w).

Module Int64.
Definition wrap (z : Z) : Z := (z + 2 ^ 63) mod 2 ^ 64 - 2 ^ 63.
(** Go's [/] on integers truncates toward zero. *)
Definition div (x y : Z) : Z := wrap (Z.quot x y).
End Int64.

(** [time.Now().UnixNano()], an [int64]. *)
Definition time_Now_UnixNano : M Z :=
  fun w => (Done (Int64.wrap (clock_src w (clock_reads w))),
            set_clock_reads (S (clock_reads w)) w).

(** [int64(time.Millisecond)] *)
Definition Millisecond : Z := 1000000.

(** [client.Do(req)] on the default client: one entry in the log, and
    what the call gives back in the end, after the redirects the client
    followed on its own. *)
Definition client_Do (req : Request) : M Reply :=
  fun w => (Done (server w (length (sent w)) req), set_sent (sent w ++ [req]) w).

(** [resp.Body.Close()] *)
Definition Body_Close : M unit :=
  fun w => (Done tt, set_closed (S (closed w)) w).

(** The single-result type assertions [x.(T)]: a panic when the dynamic
    type is not [T]. *)
Definition assert_map (v : json) : M (gmap string json) :=
  match v with
  | JObj m => ret m
  | _ => panic (InterfaceConversion (dynamic_type v) TMap)
  end.

Definition assert_slice (v : json) : M (list json) :=
  match v with
  | JArr l => ret l
  | _ => panic (InterfaceConversion (dynamic_type v) TSlice)
  end.

Definition assert_string (v : json) : M string :=
  match v with
  | JStr s => ret s
  | _ => panic (InterfaceConversion (dynamic_type v) TString)
  end.

(** ** The program *)

Section Program.
Context `{Platform}.
Import GoBytes.

(** [createHeaders], main.go lines 18-44. *)
Definition createHeaders (token secret : string)
  : M (gmap string string * option string) :=
  let* nonce := uuid_New_String in
  let* now := time_Now_UnixNano in
  let t := Int64.div now Millisecond in
  let stringToSign := token ++ Fmt.d t ++ nonce in
  let signature := Hmac.SumSHA256 (of_string secret) (of_string stringToSign) in
  let sign := Base64.EncodeToString signature in
  let apiHeader : gmap string string := ∅ in
  let apiHeader := <["Authorization" := token]> apiHeader in
  let apiHeader := <["Content-Type" := "application/json"]> apiHeader in
  let apiHeader := <["charset" := "utf-8"]> apiHeader in
  let apiHeader := <["t" := Fmt.d t]> apiHeader in
  let apiHeader := <["sign" := sign]> apiHeader in
  let apiHeader := <["nonce" := nonce]> apiHeader in
  ret (apiHeader, None).

(** [for key, value := range headers { req.Header.Add(key, value) }] on
    the empty header of a new request.  The names are kept as given: the
    canonical spelling [net/http] gives them is not modelled. *)
Definition add_headers (headers : gmap string string) : gmap string string :=
  map_fold (fun key value h => <[key := value]> h) ∅ headers.

(** [callSwitchBotAPI], main.go lines 47-79.  The first component is the
    returned slice, [None] for nil. *)
Definition callSwitchBotAPI (url : string) (headers : gmap string string)
  : M (option bytes * option string) :=
  match http_NewRequest "GET" url with
  | Some err => ret (None, Some ("error creating request: " ++ err))
  | None =>
      let req := mkRequest "GET" url (add_headers headers) in
      let* reply := client_Do req in
      match reply with
      | TransportError err =>
          ret (None, Some ("error executing HTTP request: " ++ err))
      | Response StatusCode body read_err =>
          (* defer resp.Body.Close() *)
          let* result :=
            if negb (StatusCode =? 200) then
              ret (None, Some ("error: API request failed with status code "
                               ++ Fmt.d StatusCode))
            else
              match read_err with
              | Some err =>
                  ret (None, Some ("error reading response body: " ++ err))
              | None => ret (Some body, None)
              end in
          let* _ := Body_Close in
          ret result
      end
  end.

(** A nil slice converts and decodes like the empty one. *)
Definition slice (b : option bytes) : bytes :=
  match b with Some x => x | None => [] end.

Definition degreeC : string :=
  String (ascii_of_nat 195) (String (ascii_of_nat 130)
    (String (ascii_of_nat 194) (String (ascii_of_nat 176) "C"))).

(** [main], main.go lines 81-183. *)
Definition main : M unit :=
  let* token := Getenv "SWITCHBOT_TOKEN" in
  let* secret := Getenv "SWITCHBOT_API_KEY" in
  if (token =? "")%string || (secret =? "")%string then
    Println "Error: SWITCHBOT_TOKEN or SWITCHBOT_API_KEY environment variable is not set"
  else
  let* (apiHeader, err) := createHeaders token secret in
  match err with
  | Some e => print ("Error creating headers: " ++ e ++ Fmt.nl)
  | None =>
  let apiURLDevices := "https://api.switch-bot.com/v1.1/devices" in
  let* (bodyDevices, err) := callSwitchBotAPI apiURLDevices apiHeader in
  match err with
  | Some e => print ("Error calling /devices API: " ++ e ++ Fmt.nl)
  | None =>
  let* _ := print ("Response from /devices: " ++ to_string (slice bodyDevices)
                   ++ Fmt.nl) in
  match json_Unmarshal (slice bodyDevices) with
  | inl e => print ("Error unmarshalling /devices response: " ++ e ++ Fmt.nl)
  | inr devicesResponse =>
  let* body := assert_map (index devicesResponse "body") in
  let* devices := assert_slice (index body "deviceList") in
  match devices with
  | [] => Println "No devices found."
  | devices_0 :: _ =>
  let* firstDevice := assert_map devices_0 in
  let* deviceID := assert_string (index firstDevice "deviceId") in
  let* _ := print ("Using deviceId: " ++ deviceID ++ Fmt.nl) in
  let apiURLDeviceStatus :=
    "https://api.switch-bot.com/v1.1/devices/" ++ deviceID ++ "/status" in
  let* (bodyDeviceStatus, err) := callSwitchBotAPI apiURLDeviceStatus apiHeader in
  match err with
  | Some e =>
      print ("Error calling /devices/{deviceId}/status API: " ++ e ++ Fmt.nl)
  | None =>
  let* _ := print ("Response from /devices/{deviceId}/status: "
                   ++ to_string (slice bodyDeviceStatus) ++ Fmt.nl) in
  match json_Unmarshal (slice bodyDeviceStatus) with
  | inl e =>
      print ("Error unmarshalling /devices/{deviceId}/status response: "
             ++ e ++ Fmt.nl)
  | inr statusResponse =>
  let '(body, ok) := as_map (index statusResponse "body") in
  if negb ok then
    Println "Error: response body is missing or not in expected format."
  else
  let '(deviceIDStatus, ok) := as_string (index body "deviceId") in
  let deviceIDStatus := if negb ok then "N/A" else deviceIDStatus in
  let '(deviceType, ok) := as_string (index body "deviceType") in
  let deviceType := if negb ok then "N/A" else deviceType in
  let '(hubDeviceId, ok) := as_string (index body "hubDeviceId") in
  let hubDeviceId := if negb ok then "N/A" else hubDeviceId in
  let '(humidity, ok) := as_float64 (index body "humidity") in
  let humidity := if negb ok then S754_zero false else humidity in
  let '(temperature, ok) := as_float64 (index body "temperature") in
  let temperature := if negb ok then S754_zero false else temperature in
  let* _ := print ("Device ID: " ++ deviceIDStatus ++ Fmt.nl) in
  let* _ := print ("Device Type: " ++ deviceType ++ Fmt.nl) in
  let* _ := print ("Hub Device ID: " ++ hubDeviceId ++ Fmt.nl) in
  let* _ := print ("Humidity: " ++ Fmt.f 2 humidity ++ Fmt.nl) in
  print ("Temperature: " ++ Fmt.f 2 temperature ++ degreeC ++ Fmt.nl)
  end end end end end end.

End Program.

(** ** A reference JSON decoder

    [encoding/json] is not part of the repository: the program above takes
    the decoder from [Platform].  This module is an executable instance
    that follows [json.Unmarshal] into a [map[string]interface{}]: the JSON
    grammar, numbers rounded to the nearest float64, escapes and invalid
    UTF-8 in strings coerced as Go does, the last of two equal keys kept,
    and the top-level value required to be an object or [null].  The error
    texts are this module's own. *)

Module RefJson.
Import GoBytes.

Definition prec : Z := 53.
Definition emax : Z := 1024.

Definition res (A : Type) : Type := string + (A * list Z).

Definition is_ws (c : Z) : bool :=
  (c =? 32) || (c =? 9) || (c =? 13) || (c =? 10).

Fixpoint skip_ws (s : list Z) : list Z :=
  match s with
  | c :: s' => if is_ws c then skip_ws s' else s
  | [] => []
  end.

Definition is_digit (c : Z) : bool := (48 <=? c) && (c <=? 57).

(** Digits read as a number: the value so far, how many were read, and
    the rest of the input. *)
Fixpoint digits (acc : Z) (n : Z) (s : list Z) : Z * Z * list Z :=
  match s with
  | c :: s' => if is_digit c then digits (10 * acc + (c - 48)) (n + 1) s'
               else (acc, n, s)
  | [] => (acc, n, [])
  end.

(** [strconv.ParseFloat(_, 64)] on the pieces of a JSON number
    [mant * 10^exp10]: the nearest float64, ties to even.  A value of at
    least [10^309] overflows, and one below [2^-1075] rounds to zero; the
    first two tests settle these without building the power of ten. *)
Definition to_float64 (neg : bool) (mant exp10 : Z) : spec_float :=
  match mant with
  | Zpos m =>
      if 309 <=? exp10 then S754_infinity neg
      else if Z.log2 mant + 1 + 3 * exp10 <? -1075 then S754_zero neg
      else if 0 <=? exp10 then
        SFdiv prec emax (S754_finite neg (m * Z.to_pos (10 ^ exp10)) 0)
              (S754_finite false 1 0)
      else
        SFdiv prec emax (S754_finite neg m 0)
              (S754_finite false (Z.to_pos (10 ^ (- exp10))) 0)
  | _ => S754_zero neg
  end.

Definition number (s : list Z) : res spec_float :=
  let '(neg, s) := match s with 45 :: s' => (true, s') | _ => (false, s) end in
  let int_part :=
    match s with
    | 48 :: s' => Some (0, s')
    | c :: _ => if is_digit c then
                  let '(v, _, s') := digits 0 0 s in Some (v, s')
                else None
    | [] => None
    end in
  match int_part with
  | None => inl "invalid character in numeric literal"
  | Some (i, s) =>
      let frac_part :=
        match s with
        | 46 :: s' =>
            let '(v, n, s'') := digits i 0 s' in
            if n =? 0 then None else Some (v, n, s'')
        | _ => Some (i, 0, s)
        end in
      match frac_part with
      | None => inl "invalid character after decimal point in numeric literal"
      | Some (m, nfrac, s) =>
          let exp_part :=
            match s with
            | c :: s' =>
                if (c =? 101) || (c =? 69) then
                  let '(eneg, s'') :=
                    match s' with
                    | 45 :: t => (true, t)
                    | 43 :: t => (false, t)
                    | _ => (false, s')
                    end in
                  let '(v, n, s''') := digits 0 0 s'' in
                  if n =? 0 then None
                  else Some (if eneg then - v else v, s''')
                else Some (0, s)
            | [] => Some (0, s)
            end in
          match exp_part with
          | None => inl "invalid character in exponent of numeric literal"
          | Some (e, s) =>
              match to_float64 neg m (e - nfrac) with
              | S754_infinity _ | S754_nan =>
                  inl "json: cannot unmarshal number into Go value of type float64"
              | x => inr (x, s)
              end
          end
      end
  end.

(** *** Strings *)

Definition hex (c : Z) : option Z :=
  if is_digit c then Some (c - 48)
  else if (97 <=? c) && (c <=? 102) then Some (c - 87)
  else if (65 <=? c) && (c <=? 70) then Some (c - 55)
  else None.

(** [getu4]: the code unit of [\uXXXX] at the head of the input. *)
Definition getu4 (s : list Z) : option (Z * list Z) :=
  match s with
  | 92 :: 117 :: a :: b :: c :: d :: s' =>
      match hex a, hex b, hex c, hex d with
      | Some a, Some b, Some c, Some d =>
          Some (4096 * a + 256 * b + 16 * c + d, s')
      | _, _, _, _ => None
      end
  | _ => None
  end.

Definition RuneError : Z := 0xFFFD.

(** [utf8.AppendRune] *)
Definition utf8_encode (r : Z) : list Z :=
  let cont x := Z.lor 0x80 (Z.land x 0x3F) in
  if r <? 0 then [0xEF; 0xBF; 0xBD]
  else if r <? 0x80 then [r]
  else if r <? 0x800 then [Z.lor 0xC0 (Z.shiftr r 6); cont r]
  else if (r >? 0x10FFFF) || ((0xD800 <=? r) && (r <=? 0xDFFF)) then
    [0xEF; 0xBF; 0xBD]
  else if r <? 0x10000 then
    [Z.lor 0xE0 (Z.shiftr r 12); cont (Z.shiftr r 6); cont r]
  else
    [Z.lor 0xF0 (Z.shiftr r 18); cont (Z.shiftr r 12); cont (Z.shiftr r 6);
     cont r].

Definition in_range (lo hi c : Z) : bool := (lo <=? c) && (c <=? hi).

(** [utf8.DecodeRune] on input whose first byte is at least [0x80]: the
    bytes of a well-formed encoding, or the replacement character for
    one consumed byte. *)
Definition utf8_take (s : list Z) : list Z * list Z :=
  let bad := (utf8_encode RuneError, tl s) in
  match s with
  | c0 :: c1 :: rest1 =>
      if in_range 0xC2 0xDF c0 then
        if in_range 0x80 0xBF c1 then ([c0; c1], rest1) else bad
      else
        let lo := if c0 =? 0xE0 then 0xA0 else if c0 =? 0xF0 then 0x90 else 0x80 in
        let hi := if c0 =? 0xED then 0x9F else if c0 =? 0xF4 then 0x8F else 0xBF in
        if in_range 0xE0 0xEF c0 then
          match rest1 with
          | c2 :: rest2 =>
              if in_range lo hi c1 && in_range 0x80 0xBF c2
              then ([c0; c1; c2], rest2) else bad
          | [] => bad
          end
        else if in_range 0xF0 0xF4 c0 then
          match rest1 with
          | c2 :: c3 :: rest3 =>
              if in_range lo hi c1 && in_range 0x80 0xBF c2
                 && in_range 0x80 0xBF c3
              then ([c0; c1; c2; c3], rest3) else bad
          | _ => bad
          end
        else bad
  | _ => bad
  end.

Definition simple_escape (c : Z) : option Z :=
  if (c =? 34) || (c =? 92) || (c =? 47) then Some c
  else if c =? 98 then Some 8
  else if c =? 102 then Some 12
  else if c =? 110 then Some 10
  else if c =? 114 then Some 13
  else if c =? 116 then Some 9
  else None.

(** The characters of a string literal after its opening quote. *)
Fixpoint chars (fuel : nat) (acc : list Z) (s : list Z) : res (list Z) :=
  match fuel with
  | O => inl "unexpected end of JSON input"
  | S fuel' =>
      match s with
      | [] => inl "unexpected end of JSON input"
      | 34 :: s' => inr (acc, s')
      | 92 :: 117 :: _ =>
          match getu4 s with
          | None => inl "invalid character in \u hexadecimal character escape"
          | Some (rr, s') =>
              if in_range 0xD800 0xDFFF rr then
                match getu4 s' with
                | Some (rr1, s'') =>
                    if in_range 0xD800 0xDBFF rr && in_range 0xDC00 0xDFFF rr1
                    then chars fuel'
                           (acc ++ utf8_encode
                              (Z.lor (Z.shiftl (rr - 0xD800) 10) (rr1 - 0xDC00)
                               + 0x10000))%list s''
                    else chars fuel' (acc ++ utf8_encode RuneError)%list s'
                | None => chars fuel' (acc ++ utf8_encode RuneError)%list s'
                end
              else chars fuel' (acc ++ utf8_encode rr)%list s'
          end
      | 92 :: c :: s' =>
          match simple_escape c with
          | Some b => chars fuel' (acc ++ [b])%list s'
          | None => inl "invalid character in string escape code"
          end
      | [92] => inl "unexpected end of JSON input"
      | c :: s' =>
          if c <? 32 then inl "invalid character in string literal"
          else if c <? 128 then chars fuel' (acc ++ [c])%list s'
          else let '(bs, s'') := utf8_take s in chars fuel' (acc ++ bs)%list s''
      end
  end.

Definition to_str (l : list Z) : string :=
  string_of_list_ascii (map (fun c => ascii_of_N (Z.to_N c)) l).

Definition str (s : list Z) : res string :=
  match chars (S (length s)) [] s with
  | inl e => inl e
  | inr (l, s') => inr (to_str l, s')
  end.

Definition literal (word : list Z) (v : json) (s : list Z) : res json :=
  if decide (firstn (length word) s = word)
  then inr (v, skipn (length word) s)
  else inl "invalid character in literal".

Definition maxNestingDepth : Z := 10000.

(** *** Values *)

Fixpoint value (fuel : nat) (depth : Z) (s : list Z) : res json :=
  match fuel with
  | O => inl "unexpected end of JSON input"
  | S fuel' =>
      match skip_ws s with
      | [] => inl "unexpected end of JSON input"
      | 123 :: s' =>
          if depth >=? maxNestingDepth then inl "exceeded max depth"
          else
            match skip_ws s' with
            | 125 :: s'' => inr (JObj ∅, s'')
            | _ =>
                match members fuel' (depth + 1) ∅ s' with
                | inl e => inl e
                | inr (m, s'') => inr (JObj m, s'')
                end
            end
      | 91 :: s' =>
          if depth >=? maxNestingDepth then inl "exceeded max depth"
          else
            match skip_ws s' with
            | 93 :: s'' => inr (JArr [], s'')
            | _ =>
                match elements fuel' (depth + 1) [] s' with
                | inl e => inl e
                | inr (l, s'') => inr (JArr l, s'')
                end
            end
      | 34 :: s' =>
          match str s' with
          | inl e => inl e
          | inr (x, s'') => inr (JStr x, s'')
          end
      | 116 :: _ => literal [116; 114; 117; 101] (JBool true) (skip_ws s)
      | 102 :: _ => literal [102; 97; 108; 115; 101] (JBool false) (skip_ws s)
      | 110 :: _ => literal [110; 117; 108; 108] JNull (skip_ws s)
      | c :: _ =>
          if (c =? 45) || is_digit c then
            match number (skip_ws s) with
            | inl e => inl e
            | inr (x, s'') => inr (JNum x, s'')
            end
          else inl "invalid character looking for beginning of value"
      end
  end

(** The elements of an array after [[], up to and including []]. *)
with elements (fuel : nat) (depth : Z) (acc : list json) (s : list Z)
  : res (list json) :=
  match fuel with
  | O => inl "unexpected end of JSON input"
  | S fuel' =>
      match value fuel' depth s with
      | inl e => inl e
      | inr (v, s') =>
          match skip_ws s' with
          | 44 :: s'' => elements fuel' depth (acc ++ [v])%list s''
          | 93 :: s'' => inr ((acc ++ [v])%list, s'')
          | [] => inl "unexpected end of JSON input"
          | _ => inl "invalid character after array element"
          end
      end
  end

(** The members of an object after [{], up to and including [}]. *)
with members (fuel : nat) (depth : Z) (acc : gmap string json) (s : list Z)
  : res (gmap string json) :=
  match fuel with
  | O => inl "unexpected end of JSON input"
  | S fuel' =>
      match skip_ws s with
      | 34 :: s' =>
          match str s' with
          | inl e => inl e
          | inr (key, s'') =>
              match skip_ws s'' with
              | 58 :: s3 =>
                  match value fuel' depth s3 with
                  | inl e => inl e
                  | inr (v, s4) =>
                      match skip_ws s4 with
                      | 44 :: s5 => members fuel' depth (<[key := v]> acc) s5
                      | 125 :: s5 => inr (<[key := v]> acc, s5)
                      | [] => inl "unexpected end of JSON input"
                      | _ => inl "invalid character after object key:value pair"
                      end
                  end
              | [] => inl "unexpected end of JSON input"
              | _ => inl "invalid character after object key"
              end
          end
      | [] => inl "unexpected end of JSON input"
      | _ => inl "invalid character looking for beginning of object key string"
      end
  end.

Definition type_error (what : string) : string :=
  "json: cannot unmarshal " ++ what
  ++ " into Go value of type map[string]interface {}".

(** [json.Unmarshal(data, &m)] for [m] a nil [map[string]interface{}]. *)
Definition Unmarshal (data : bytes) : string + gmap string json :=
  let s := map byte_to_Z data in
  match value (2 * length s + 2) 0 s with
  | inl e => inl e
  | inr (v, s') =>
      match skip_ws s' with
      | _ :: _ => inl "invalid character after top-level value"
      | [] =>
          match v with
          | JObj m => inr m
          | JNull => inr ∅
          | JBool _ => inl (type_error "bool")
          | JNum _ => inl (type_error "number")
          | JStr _ => inl (type_error "string")
          | JArr _ => inl (type_error "array")
          end
      end
  end.

End RefJson.

(** ** A reference check for [http.NewRequest]

    [net/http] and [net/url] are not part of the repository either.  For
    the URLs the program builds (a fixed scheme and host followed by a
    path), [url.Parse] fails on an ASCII control character anywhere, and
    on a [%] that is not followed by two hexadecimal digits in the path or
    in the fragment.  The error texts are this module's own. *)

Module RefURL.
Import GoBytes.

Definition has_ctl (s : list Z) : bool :=
  existsb (fun c => (c <? 32) || (c =? 127)) s.

Definition is_hex (c : Z) : bool :=
  match RefJson.hex c with Some _ => true | None => false end.

Fixpoint bad_escape (s : list Z) : bool :=
  match s with
  | 37 :: a :: b :: s' =>
      if is_hex a && is_hex b then bad_escape s' else true
  | 37 :: _ => true
  | _ :: s' => bad_escape s'
  | [] => false
  end.

(** [strings.Cut(s, sep)] for a one-byte separator. *)
Fixpoint cut (sep : Z) (s : list Z) : list Z * list Z :=
  match s with
  | [] => ([], [])
  | c :: s' =>
      if c =? sep then ([], s')
      else let '(a, b) := cut sep s' in (c :: a, b)
  end.

(** The checks of [url.Parse] that a URL of this program can fail: a
    control character before the fragment, a bad escape in the path or in
    the fragment. *)
Definition NewRequest (method url : string) : option string :=
  let s := map byte_to_Z (of_string url) in
  let '(u, frag) := cut 35 s in
  if has_ctl u then Some "net/url: invalid control character in URL"
  else
    let '(path, _) := cut 63 u in
    if bad_escape path || bad_escape frag
    then Some "net/url: invalid URL escape"
    else None.

(** *** Where the request goes

    [http.NewRequest] keeps the parsed URL, and the GET is made for its
    [RequestURI] on its host: the fragment is dropped, the query is kept
    as written, and the path is written as [EscapedPath] gives it. *)

Definition is_alnum (c : Z) : bool :=
  ((48 <=? c) && (c <=? 57)) || ((65 <=? c) && (c <=? 90))
  || ((97 <=? c) && (c <=? 122)).

(** [shouldEscape(c, encodePath)]: letters, digits, [-_.~] and
    [$&+,/:;=@] are kept. *)
Definition shouldEscape (c : Z) : bool :=
  negb (is_alnum c
        || existsb (Z.eqb c) [45; 95; 46; 126; 36; 38; 43; 44; 47; 58; 59; 61; 64]).

Definition upperhex (v : Z) : Z := if v <? 10 then 48 + v else 55 + v.

(** [escape(s, encodePath)] *)
Definition escape (s : list Z) : list Z :=
  flat_map (fun c => if shouldEscape c
                     then [37; upperhex (c / 16); upperhex (c mod 16)]
                     else [c]) s.

(** [unescape(s, encodePath)], on a string without bad escapes. *)
Fixpoint unescape (s : list Z) : list Z :=
  match s with
  | 37 :: a :: b :: s' =>
      match RefJson.hex a, RefJson.hex b with
      | Some x, Some y => (16 * x + y) :: unescape s'
      | _, _ => 37 :: a :: b :: unescape s'
      end
  | c :: s' => c :: unescape s'
  | [] => []
  end.

(** [validEncoded(s, encodePath)]: the characters [!$&'()*+,;=:@[]%] and
    those that need no escape. *)
Definition validEncoded (s : list Z) : bool :=
  forallb (fun c =>
             existsb (Z.eqb c)
                     [33; 36; 38; 39; 40; 41; 42; 43; 44; 59; 61; 58; 64; 91; 93; 37]
             || negb (shouldEscape c)) s.

(** [EscapedPath] of the URL parsed from the raw path [p].  [setPath]
    keeps [p] as [RawPath] unless [p] is already the escaped form of the
    decoded path, in which case both branches below give [p]. *)
Definition EscapedPath (p : list Z) : list Z :=
  if validEncoded p then p else escape (unescape p).

(** [RequestURI] of the URL parsed from [rest], the part of the raw URL
    after scheme and host. *)
Definition RequestURI (rest : list Z) : list Z :=
  let '(u, _) := cut 35 rest in
  let '(p, q) := cut 63 u in
  let path := EscapedPath p in
  (match path with [] => [47] | _ => path end)
  ++ (if existsb (Z.eqb 63) u then 63 :: q else []).

Definition origin : string := "https://api.switch-bot.com".

Fixpoint strip_prefix (p s : list Z) : option (list Z) :=
  match p, s with
  | [], _ => Some s
  | a :: p', b :: s' => if a =? b then strip_prefix p' s' else None
  | _ :: _, [] => None
  end.

(** The URL of the GET for a request created from [url]: defined for
    the URLs on the host of the API, the only ones [main.go] builds, when
    [NewRequest] accepts them. *)
Definition request_url (url : string) : option string :=
  match NewRequest "GET" url with
  | Some _ => None
  | None =>
      match strip_prefix (map byte_to_Z (of_string origin))
                         (map byte_to_Z (of_string url)) with
      | Some (47 :: rest) =>
          Some (origin ++ to_string (map byte_of_Z (RequestURI (47 :: rest))))
      | _ => None
      end
  end.



End RefURL.

Definition RefPlatform : Platform := {|
  json_Unmarshal := RefJson.Unmarshal;
  http_NewRequest := RefURL.NewRequest
|}.

(** ** Sample worlds *)

Module Sample.
Import GoBytes.

(** JSON text is written with ['] for the double quote. *)
Fixpoint quoted (s : string) : string :=
  match s with
  | EmptyString => EmptyString
  | String c s' =>
      String (if Ascii.eqb c "'"%char then ascii_of_nat 34 else c) (quoted s')
  end.

Definition json_text (s : string) : bytes := of_string (quoted s).

Definition credentials : gmap string string :=
  <["SWITCHBOT_TOKEN" := "token"]> (<["SWITCHBOT_API_KEY" := "secret"]> ∅).

Definition uuids (k : nat) : string :=
  nth k [ "123e4567-e89b-12d3-a456-426614174000";
          "0b9d1c4e-7f3a-4c58-9e21-5d6f8a7b3c10" ] "".

(** A clock that advances by a quarter of a second per reading. *)
Definition clock (k : nat) : Z := 1700000000000123456 + 250000000 * Z.of_nat k.

(** A server that gives [first] to the first request and [second] to
    every later one. *)
Definition serve (first second : Reply) (k : nat) (_ : Request) : Reply :=
  match k with O => first | S _ => second end.

Definition world (env : gmap string string) (first second : Reply) : World :=
  mkWorld env uuids clock (serve first second) 0 0 [] 0 [].

Definition ok (body : string) : Reply := Response 200 (json_text body) None.

(** The header set for the first nonce and the first clock reading. *)
Definition headers : gmap string string :=
  <["nonce" := "123e4567-e89b-12d3-a456-426614174000"]>
    (<["sign" := "sSAUOYjBTmYVtzMg0ScazkTosTePNqu1+Ao3CMsd4zU="]>
    (<["t" := "1700000000000"]>
    (<["charset" := "utf-8"]>
    (<["Content-Type" := "application/json"]>
    (<["Authorization" := "token"]> ∅))))).

(** What the reference decoder makes of a JSON text, and the object under
    a key of a decoded object. *)
Definition decoded (text : string) : gmap string json :=
  match RefJson.Unmarshal (json_text text) with
  | inr m => m
  | inl _ => ∅
  end.

Definition object_at (m : gmap string json) (key : string) : gmap string json :=
  match m !! key with
  | Some (JObj o) => o
  | _ => ∅
  end.

Definition devices_ABC123 : string :=
  "{'statusCode':100,'body':{'deviceList':[{'deviceId':'ABC123','deviceName':'Meter','deviceType':'Meter','hubDeviceId':'FFEEDD'},{'deviceId':'DEF456','deviceType':'Bot'}],'infraredRemoteList':[]},'message':'success'}".

Definition devices_empty : string :=
  "{'statusCode':100,'body':{'deviceList':[],'infraredRemoteList':[]},'message':'success'}".

Definition devices_no_list : string :=
  "{'statusCode':401,'body':{},'message':'Unauthorized'}".

Definition devices_no_body : string :=
  "{'message':'Unauthorized'}".

Definition devices_no_id : string :=
  "{'statusCode':100,'body':{'deviceList':[{'deviceName':'Meter'}]},'message':'success'}".

Definition devices_first_number : string :=
  "{'statusCode':100,'body':{'deviceList':[42]},'message':'success'}".

Definition status_full : string :=
  "{'statusCode':100,'body':{'deviceId':'ABC123','deviceType':'Meter','hubDeviceId':'FFEEDD','humidity':55.5,'temperature':21.05},'message':'success'}".

Definition status_partial : string :=
  "{'statusCode':100,'body':{'deviceId':'ABC123','deviceType':7,'temperature':'warm'},'message':'success'}".

Definition status_no_body : string :=
  "{'statusCode':190,'body':'','message':'wrong deviceId'}".

Definition w_ok : World :=
  world credentials (ok devices_ABC123) (ok status_full).
Definition w_partial : World :=
  world credentials (ok devices_ABC123) (ok status_partial).
Definition w_status_no_body : World :=
  world credentials (ok devices_ABC123) (ok status_no_body).
Definition w_empty : World :=
  world credentials (ok devices_empty) (ok status_full).
Definition w_no_list : World :=
  world credentials (ok devices_no_list) (ok status_full).
Definition w_no_body : World :=
  world credentials (ok devices_no_body) (ok status_full).
Definition w_no_id : World :=
  world credentials (ok devices_no_id) (ok status_full).
Definition w_first_number : World :=
  world credentials (ok devices_first_number) (ok status_full).
Definition w_no_secret : World :=
  world (<["SWITCHBOT_TOKEN" := "token"]> ∅) (ok devices_ABC123) (ok status_full).
Definition w_empty_token : World :=
  world (<["SWITCHBOT_TOKEN" := ""]> credentials) (ok devices_ABC123) (ok status_full).
Definition w_404 : World :=
  world credentials (Response 404 (json_text "{'message':'not found'}") None)
        (ok status_full).
Definition w_read_error : World :=
  world credentials (Response 200 (json_text "{'statusCode'") (Some "unexpected EOF"))
        (ok status_full).

End Sample.

(** ** Vocabulary of the properties *)

(** The millisecond timestamp [createHeaders] computes in [w]. *)
Definition millis (w : World) : Z :=
  Int64.div (Int64.wrap (clock_src w (clock_reads w))) Millisecond.

(** The value of the [sign] header as the specification words it: standard
    base64 of HMAC-SHA256, keyed by the secret, over token, decimal
    timestamp and nonce without separators. *)
Definition signature (token secret : string) (t : Z) (nonce : string) : string :=
  Base64.EncodeToString
    (Hmac.SumSHA256 (GoBytes.of_string secret)
                    (GoBytes.of_string (token ++ Fmt.d t ++ nonce))).

(** The world after one nonce and one clock reading were drawn. *)
Definition after_headers (w : World) : World :=
  set_clock_reads (S (clock_reads w)) (set_uuid_calls (S (uuid_calls w)) w).

(** The world after [req] was sent and the body of its response closed. *)
Definition after_call (req : Request) (w : World) : World :=
  set_closed (S (closed w)) (set_sent (sent w ++ [req])%list w).

Definition unset_or_empty (w : World) (key : string) : Prop :=
  environ w !! key = None \/ environ w !! key = Some "".

Definition apiURLDevices : string := "https://api.switch-bot.com/v1.1/devices".

Definition apiURLDeviceStatus (deviceID : string) : string :=
  "https://api.switch-bot.com/v1.1/devices/" ++ deviceID ++ "/status".

Section Answers.
Context `{Platform}.

(** Both credentials are set, [apiHeader] is the header set built in
    [w], and the server answers the devices request with status 200 and
    the body [bodyDevices], read to its end. *)
Definition devices_answer (w : World) (apiHeader : gmap string string)
           (bodyDevices : GoBytes.bytes) : Prop :=
  exists token secret,
    environ w !! "SWITCHBOT_TOKEN" = Some token /\ token <> ""
    /\ environ w !! "SWITCHBOT_API_KEY" = Some secret /\ secret <> ""
    /\ fst (createHeaders token secret w) = Done (apiHeader, None)
    /\ http_NewRequest "GET" apiURLDevices = None
    /\ server w (length (sent w)) (mkRequest "GET" apiURLDevices apiHeader)
       = Response 200 bodyDevices None.

(** The server answers the second request of the run, the status request
    for [deviceID], with status 200 and the body [bodyDeviceStatus]. *)
Definition status_answer (w : World) (apiHeader : gmap string string)
           (deviceID : string) (bodyDeviceStatus : GoBytes.bytes) : Prop :=
  http_NewRequest "GET" (apiURLDeviceStatus deviceID) = None
  /\ server w (S (length (sent w)))
       (mkRequest "GET" (apiURLDeviceStatus deviceID) apiHeader)
     = Response 200 bodyDeviceStatus None.

(** Claim C1 as the specification states it, for the runs from [w]:
    the header set of the second request is not the one of the first,
    and it is the set built from the next nonce and the next clock
    reading. *)
Definition fresh_headers_per_call (w : World) : Prop :=
  forall o w' first second,
    main w = (o, w') ->
    sent w' = (sent w ++ [first; second])%list ->
    rq_headers second <> rq_headers first
    /\ exists token secret,
         fst (createHeaders token secret (after_headers w))
         = Done (rq_headers second, None).

(** Steps that leave the request log and the two sources alone. *)
Definition quiet (c : M unit) : Prop :=
  forall v, sent (snd (c v)) = sent v
            /\ uuid_calls (snd (c v)) = uuid_calls v
            /\ clock_reads (snd (c v)) = clock_reads v.

End Answers.

(** The decoded devices response has an object [body] whose [deviceList]
    is a list. *)
Definition has_device_list (devicesResponse : gmap string json) : Prop :=
  exists body devices,
    devicesResponse !! "body" = Some (JObj body)
    /\ body !! "deviceList" = Some (JArr devices).

(** ... and the first element of that list is an object with the string
    [deviceID] under [deviceId]. *)
Definition first_device_id (devicesResponse : gmap string json)
           (deviceID : string) : Prop :=
  exists body firstDevice rest,
    devicesResponse !! "body" = Some (JObj body)
    /\ body !! "deviceList" = Some (JArr (JObj firstDevice :: rest))
    /\ firstDevice !! "deviceId" = Some (JStr deviceID).

(** ... or the first element [first] is not such an object. *)
Definition first_device_unusable (devicesResponse : gmap string json)
           (first : json) : Prop :=
  (exists body rest,
     devicesResponse !! "body" = Some (JObj body)
     /\ body !! "deviceList" = Some (JArr (first :: rest)))
  /\ ~ (exists firstDevice deviceID,
         first = JObj firstDevice
         /\ firstDevice !! "deviceId" = Some (JStr deviceID)).

(** The decoded status response has an object [body]. *)
Definition has_body (statusResponse : gmap string json) : Prop :=
  exists body, statusResponse !! "body" = Some (JObj body).

(** Decode-or-default, as the specification words the soft extraction. *)
Definition string_or_NA (v : option json) : string :=
  match v with Some (JStr s) => s | _ => "N/A" end.

Definition two_decimals_or_zero (v : option json) : string :=
  match v with Some (JNum x) => Fmt.f 2 x | _ => "0.00" end.

(** The float64 nearest to 55.5 (it is exact). *)
Definition f55_5 : spec_float := S754_finite false 7810930603720704 (-47).

Definition finite (x : spec_float) : bool :=
  match x with S754_zero _ | S754_finite _ _ _ => true | _ => false end.

Definition is_digit (c : ascii) : bool :=
  (48 <=? Z.of_nat (nat_of_ascii c)) && (Z.of_nat (nat_of_ascii c) <=? 57).

Fixpoint all_digits (s : string) : bool :=
  match s with
  | EmptyString => true
  | String c s' => is_digit c && all_digits s'
  end.

(** An optional minus sign, at least one digit, a point, two digits. *)
Definition two_decimals (s : string) : Prop :=
  exists sgn int_part d1 d2,
    s = sgn ++ int_part ++ "." ++ String d1 (String d2 "")
    /\ (sgn = "" \/ sgn = "-")
    /\ int_part <> "" /\ all_digits int_part = true
    /\ is_digit d1 = true /\ is_digit d2 = true.

(** The two digits [Fmt.fixed 2] writes after the point for a remainder. *)
Definition frac2 (r : Z) : string :=
  Fmt.zeros (2 - String.length (Fmt.d r)) ++ Fmt.d r.

Definition frac2_ok (n : nat) : bool :=
  match frac2 (Z.of_nat n) with
  | String d1 (String d2 EmptyString) => is_digit d1 && is_digit d2
  | _ => false
  end.

(** What the Go runtime reports for a panic that nothing recovers: the
    first line it writes to standard error, and the exit status. *)
Definition GoTypeName (t : GoType) : string :=
  match t with
  | TBool => "bool"
  | TFloat64 => "float64"
  | TString => "string"
  | TSlice => "[]interface {}"
  | TMap => "map[string]interface {}"
  end.

Definition panic_message (p : Panic) : string :=
  match p with
  | InterfaceConversion dynamic target =>
      "interface conversion: interface {} is "
      ++ match dynamic with Some t => GoTypeName t | None => "nil" end
      ++ ", not " ++ GoTypeName target
  end.

Definition crash_report (o : Outcome unit) : option string :=
  match o with
  | Done _ => None
  | Panicked p => Some ("panic: " ++ panic_message p)
  end.

Definition exit_code (o : Outcome unit) : Z :=
  match o with Done _ => 0 | Panicked _ => 2 end.

(** ** Vocabulary of the further properties *)

(** Both credentials are set and not empty. *)
Definition got_credentials (w : World) (token secret : string) : Prop :=
  environ w !! "SWITCHBOT_TOKEN" = Some token /\ token <> ""
  /\ environ w !! "SWITCHBOT_API_KEY" = Some secret /\ secret <> "".

(** How many of the requests [reqs], sent as the k-th, (k+1)-th, ...
    request, the server [srv] answers with a response. *)
Fixpoint answered (srv : nat -> Request -> Reply) (k : nat)
         (reqs : list Request) : nat :=
  match reqs with
  | [] => O
  | r :: rest =>
      (match srv k r with Response _ _ _ => 1 | TransportError _ => 0 end
       + answered srv (S k) rest)%nat
  end.

(** A line as [Printf] with a final [\n] and [Println] write it. *)
Definition ends_nl (s : string) : Prop := exists s', s = s' ++ Fmt.nl.

(** A GET request created from the devices URL or from a string that
    extends it. *)
Definition is_api_get (r : Request) : Prop :=
  rq_method r = "GET" /\ exists rest, rq_url r = apiURLDevices ++ rest.

(** [v] is reached from [w] by sending [reqs], printing [lines] and
    drawing [drawn] nonces and clock readings: the oracles and the
    environment are those of [w], and one response body is closed for
    each response received. *)
Definition reach (w v : World) (reqs : list Request) (lines : list string)
           (drawn : nat) : Prop :=
  environ v = environ w /\ uuid_src v = uuid_src w
  /\ clock_src v = clock_src w /\ server v = server w
  /\ sent v = (sent w ++ reqs)%list
  /\ stdout v = (stdout w ++ lines)%list
  /\ closed v = (closed w + answered (server w) (length (sent w)) reqs)%nat
  /\ uuid_calls v = (uuid_calls w + drawn)%nat
  /\ clock_reads v = (clock_reads w + drawn)%nat.

(** A step that only prints [lines]. *)
Definition prints (c : M unit) (lines : list string) : Prop :=
  forall v, c v = (Done tt, set_stdout (stdout v ++ lines)%list v).

(** The world in which [main] makes the status call: after the devices
    call and the two lines printed since. *)
Definition before_status_call (w : World) (apiHeader : gmap string string)
           (bodyDevices : GoBytes.bytes) (deviceID : string) : World :=
  let w2 := after_call (mkRequest "GET" apiURLDevices apiHeader) (after_headers w) in
  let w3 := set_stdout (stdout w2 ++ [ "Response from /devices: "
                                        +:+ GoBytes.to_string bodyDevices +:+ Fmt.nl ])%list
                       w2 in
  set_stdout (stdout w3 ++ [ "Using deviceId: " +:+ deviceID +:+ Fmt.nl ])%list w3.

Definition is_base64_char (c : ascii) : bool :=
  existsb (Ascii.eqb c) (list_ascii_of_string Base64.encodeStd).

Fixpoint all_base64 (s : string) : bool :=
  match s with
  | EmptyString => true
  | String c s' => (is_base64_char c || Ascii.eqb c Base64.padChar) && all_base64 s'
  end.

Definition enc6_ok (n : nat) : bool := is_base64_char (Base64.enc6 (Z.of_nat n)).

(** [reach] for a run of the shape [main] has: at most two requests, all
    GETs on the API, at most one nonce, drawn before any request, and
    every line ended by a newline. *)
Definition stage (w v : World) (reqs : list Request) (lines : list string)
           (drawn : nat) : Prop :=
  reach w v reqs lines drawn
  /\ (length reqs <= 2)%nat /\ (drawn <= 1)%nat
  /\ (reqs <> [] -> drawn = 1%nat)
  /\ Forall is_api_get reqs /\ Forall ends_nl lines.

(** What a whole run from [w] to [w'] looks like, whatever its outcome. *)
Definition run_summary (w w' : World) : Prop :=
  exists reqs lines drawn, stage w w' reqs lines drawn /\ lines <> [].

(** Sample worlds for the error paths of [main]. *)
Definition w_devices_not_json : World :=
  Sample.world Sample.credentials (Sample.ok "<html>502 Bad Gateway</html>")
    (Sample.ok Sample.status_full).

Definition w_status_not_json : World :=
  Sample.world Sample.credentials (Sample.ok Sample.devices_ABC123)
    (Sample.ok "{'statusCode':100,'body':{'deviceId'").

Definition w_status_503 : World :=
  Sample.world Sample.credentials (Sample.ok Sample.devices_ABC123)
    (Response 503 (GoBytes.of_string "Service Unavailable") None).

Definition w_unreachable : World :=
  Sample.world Sample.credentials
    (TransportError "dial tcp: lookup api.switch-bot.com: no such host")
    (Sample.ok Sample.status_full).




(** * Properties *)

(** ** The library models against published test vectors *)

Example sha256_constants :
  length Sha256.K = 64%nat
  /\ nth 0 Sha256.K 0 = 0x428a2f98 /\ nth 63 Sha256.K 0 = 0xc67178f2
  /\ nth 0 Sha256.init 0 = 0x6a09e667 /\ nth 7 Sha256.init 0 = 0x5be0cd19.
Proof. vm_compute. repeat split. Qed.

Example sha256_abc :
  map GoBytes.byte_to_Z (Sha256.Sum256 (GoBytes.of_string "abc"))
  = [ 0xba; 0x78; 0x16; 0xbf; 0x8f; 0x01; 0xcf; 0xea;
      0x41; 0x41; 0x40; 0xde; 0x5d; 0xae; 0x22; 0x23;
      0xb0; 0x03; 0x61; 0xa3; 0x96; 0x17; 0x7a; 0x9c;
      0xb4; 0x10; 0xff; 0x61; 0xf2; 0x00; 0x15; 0xad ].
Proof. vm_compute. reflexivity. Qed.

(** RFC 4231, test case 2. *)
Example hmac_sha256_rfc4231_2 :
  map GoBytes.byte_to_Z
      (Hmac.SumSHA256 (GoBytes.of_string "Jefe")
                      (GoBytes.of_string "what do ya want for nothing?"))
  = [ 0x5b; 0xdc; 0xc1; 0x46; 0xbf; 0x60; 0x75; 0x4e;
      0x6a; 0x04; 0x24; 0x26; 0x08; 0x95; 0x75; 0xc7;
      0x5a; 0x00; 0x3f; 0x08; 0x9d; 0x27; 0x39; 0x83;
      0x9d; 0xec; 0x58; 0xb9; 0x64; 0xec; 0x38; 0x43 ].
Proof. vm_compute. reflexivity. Qed.

(** RFC 4648, section 10. *)
Example base64_rfc4648 :
  map (fun s => Base64.EncodeToString (GoBytes.of_string s))
      [""; "f"; "fo"; "foo"; "foob"; "fooba"; "foobar"]
  = [""; "Zg=="; "Zm8="; "Zm9v"; "Zm9vYg=="; "Zm9vYmE="; "Zm9vYmFy"].
Proof. vm_compute. reflexivity. Qed.

Example fmt_d_examples :
  map Fmt.d [0; 7; 404; 1700000000000; -15] = ["0"; "7"; "404"; "1700000000000"; "-15"].
Proof. vm_compute. reflexivity. Qed.

(** 55.5, 21.05, 0.125 (a tie, rounded to even), 2.675 (below the tie in
    binary), -0.001 and 1e22 under [%.2f]. *)
Example fmt_f2_examples :
  map (Fmt.f 2)
      [ f55_5;
        S754_finite false 5925048259759309 (-48);
        S754_finite false 4503599627370496 (-55);
        S754_finite false 6023564501608038 (-51);
        S754_finite true 4611686018427388 (-62);
        S754_finite false 4768371582031250 21;
        S754_zero false; S754_zero true ]
  = [ "55.50"; "21.05"; "0.12"; "2.67"; "-0.00";
      "10000000000000000000000.00"; "0.00"; "-0.00" ].
Proof. vm_compute. reflexivity. Qed.

Example decode_55_5 :
  RefJson.number (map GoBytes.byte_to_Z (GoBytes.of_string "55.5")) = inr (f55_5, []).
Proof. vm_compute. reflexivity. Qed.

Example decode_devices_empty :
  Sample.object_at (Sample.decoded Sample.devices_empty) "body" !! "deviceList"
  = Some (JArr []).
Proof. vm_compute. reflexivity. Qed.

Example decode_rejects_array :
  RefJson.Unmarshal (Sample.json_text "[{'deviceId':'ABC123'}]")
  = inl "json: cannot unmarshal array into Go value of type map[string]interface {}".
Proof. vm_compute. reflexivity. Qed.

(** ** [Fmt]: rounding and the shape of [%.2f] *)

Lemma scaled_exact prec m e :
  0 <= e -> Fmt.scaled prec m e = m * 10 ^ Z.of_nat prec * 2 ^ e.
Proof.
  intros He. unfold Fmt.scaled. apply Z.leb_le in He. rewrite He. reflexivity.
Qed.

(** [scaled] is within one half of the exact value [m * 10^prec * 2^e]. *)
Lemma scaled_nearest prec m e :
  e < 0 ->
  Z.abs (2 * (Fmt.scaled prec m e * 2 ^ (- e) - m * 10 ^ Z.of_nat prec))
  <= 2 ^ (- e).
Proof.
  intros He. unfold Fmt.scaled.
  assert (E : (0 <=? e) = false) by (apply Z.leb_gt; lia). rewrite E.
  set (n := m * 10 ^ Z.of_nat prec). set (den := 2 ^ (- e)).
  assert (Hden : 0 < den) by (apply Z.pow_pos_nonneg; lia).
  pose proof (Z.div_mod n den ltac:(lia)) as Hdm.
  pose proof (Z.mod_pos_bound n den Hden) as Hb.
  generalize dependent (n / den). generalize dependent (n mod den).
  intros r Hr q Hq. apply Z.abs_le. clearbody n den. clear E He.
  assert (Hdown : q * den - n = - r) by (rewrite Hq; ring).
  assert (Hup : (q + 1) * den - n = den - r) by (rewrite Hq; ring).
  destruct (Z.compare_spec (2 * r) den) as [C | C | C].
  - destruct (Z.even q); rewrite ?Hdown, ?Hup; lia.
  - rewrite Hdown. lia.
  - rewrite Hup. lia.
Qed.

Lemma scaled_ties_even prec m e :
  e < 0 ->
  2 * ((m * 10 ^ Z.of_nat prec) mod 2 ^ (- e)) = 2 ^ (- e) ->
  Z.even (Fmt.scaled prec m e) = true.
Proof.
  intros He Htie. unfold Fmt.scaled.
  assert (E : (0 <=? e) = false) by (apply Z.leb_gt; lia). rewrite E.
  cbv zeta. rewrite Htie, Z.compare_refl.
  destruct (Z.even ((m * 10 ^ Z.of_nat prec) / 2 ^ (- e))) eqn:Ev; [exact Ev|].
  rewrite Z.even_add, Ev. reflexivity.
Qed.

Lemma scaled_nonneg prec m e : 0 <= m -> 0 <= Fmt.scaled prec m e.
Proof.
  intros Hm. unfold Fmt.scaled.
  assert (0 <= m * 10 ^ Z.of_nat prec) by (apply Z.mul_nonneg_nonneg; lia).
  destruct (0 <=? e) eqn:E.
  - apply Z.mul_nonneg_nonneg; [lia|]. apply Z.pow_nonneg. lia.
  - apply Z.leb_gt in E.
    assert (0 < 2 ^ (- e)) by (apply Z.pow_pos_nonneg; lia).
    assert (0 <= m * 10 ^ Z.of_nat prec / 2 ^ (- e)) by (apply Z.div_pos; lia).
    destruct (_ ?= _); [destruct (Z.even _)| |]; lia.
Qed.

Lemma string_of_uint_digits u :
  all_digits (NilEmpty.string_of_uint u) = true.
Proof. induction u; cbn; auto. Qed.

Lemma d_digits z : 0 <= z -> all_digits (Fmt.d z) = true /\ Fmt.d z <> "".
Proof.
  intros Hz. unfold Fmt.d, NilZero.string_of_int.
  destruct z as [|p|p]; [cbn; split; [reflexivity|discriminate] | | lia].
  cbn [Z.to_int]. unfold NilZero.string_of_uint.
  destruct (Pos.to_uint p) as [|u|u|u|u|u|u|u|u|u|u] eqn:E;
    [split; [reflexivity | discriminate] | ..].
  all: split; [ | discriminate ].
  - apply (string_of_uint_digits (Decimal.D0 u)).
  - apply (string_of_uint_digits (Decimal.D1 u)).
  - apply (string_of_uint_digits (Decimal.D2 u)).
  - apply (string_of_uint_digits (Decimal.D3 u)).
  - apply (string_of_uint_digits (Decimal.D4 u)).
  - apply (string_of_uint_digits (Decimal.D5 u)).
  - apply (string_of_uint_digits (Decimal.D6 u)).
  - apply (string_of_uint_digits (Decimal.D7 u)).
  - apply (string_of_uint_digits (Decimal.D8 u)).
  - apply (string_of_uint_digits (Decimal.D9 u)).
Qed.

Lemma frac2_table : forallb frac2_ok (seq 0 100) = true.
Proof. vm_compute. reflexivity. Qed.

Lemma frac2_shape r :
  0 <= r < 100 ->
  exists d1 d2, frac2 r = String d1 (String d2 "")
                /\ is_digit d1 = true /\ is_digit d2 = true.
Proof.
  intros Hr.
  pose proof frac2_table as Ht. rewrite forallb_forall in Ht.
  specialize (Ht (Z.to_nat r)).
  assert (Hin : List.In (Z.to_nat r) (seq 0 100)) by (apply in_seq; lia).
  apply Ht in Hin. unfold frac2_ok in Hin. rewrite Z2Nat.id in Hin by lia.
  destruct (frac2 r) as [|d1 [|d2 [|]]]; try discriminate.
  apply andb_true_iff in Hin. eauto.
Qed.

Lemma fixed2_shape q :
  0 <= q ->
  exists int_part d1 d2,
    Fmt.fixed 2 q = int_part +:+ "." +:+ String d1 (String d2 "")
    /\ int_part <> "" /\ all_digits int_part = true
    /\ is_digit d1 = true /\ is_digit d2 = true.
Proof.
  intros Hq. unfold Fmt.fixed.
  change (10 ^ Z.of_nat 2) with 100.
  destruct (d_digits (q / 100)) as [Hd Hne]; [apply Z.div_pos; lia|].
  destruct (frac2_shape (q mod 100)) as (d1 & d2 & Hf & H1 & H2);
    [apply Z.mod_pos_bound; lia|].
  exists (Fmt.d (q / 100)), d1, d2.
  unfold frac2 in Hf. rewrite <- Hf. auto.
Qed.

(** Every finite float64 prints under [%.2f] with exactly two digits after
    the point. *)
Lemma f2_shape x : finite x = true -> two_decimals (Fmt.f 2 x).
Proof.
  intros Hx. destruct x as [s | s | | s m e]; try discriminate.
  - exists (Fmt.sign s), "0", "0"%char, "0"%char.
    split; [reflexivity|]. split; [destruct s; auto|]. done.
  - destruct (fixed2_shape (Fmt.scaled 2 (Zpos m) e)) as (ip & d1 & d2 & Hf & ?);
      [apply scaled_nonneg; lia|].
    exists (Fmt.sign s), ip, d1, d2. cbn [Fmt.f]. rewrite Hf.
    split; [reflexivity|]. split; [destruct s; auto|]. done.
Qed.

(** ** [Int64]: a clock reading in range is divided as written *)

Lemma wrap_in_range z : - 2 ^ 63 <= z < 2 ^ 63 -> Int64.wrap z = z.
Proof. intros Hz. unfold Int64.wrap. rewrite Z.mod_small; lia. Qed.

Lemma millis_in_range z :
  - 2 ^ 63 <= z < 2 ^ 63 ->
  Int64.div (Int64.wrap z) Millisecond = Z.quot z 1000000.
Proof.
  intros Hz. rewrite wrap_in_range by exact Hz. unfold Int64.div, Millisecond.
  apply wrap_in_range.
  destruct (Z_le_gt_dec 0 z).
  - pose proof (Z.quot_pos z 1000000 ltac:(lia) ltac:(lia)).
    pose proof (Z.quot_le_upper_bound z 1000000 z ltac:(lia) ltac:(nia)). lia.
  - pose proof (Z.quot_opp_l z 1000000 ltac:(lia)) as Ho.
    pose proof (Z.quot_pos (- z) 1000000 ltac:(lia) ltac:(lia)).
    pose proof (Z.quot_le_upper_bound (- z) 1000000 (- z) ltac:(lia) ltac:(nia)).
    lia.
Qed.

(** ** [net/url]: where a request goes *)

Example request_url_examples :
  RefURL.request_url "https://api.switch-bot.com/v1.1/devices"
  = Some "https://api.switch-bot.com/v1.1/devices"
  /\ RefURL.request_url "https://api.switch-bot.com/v1.1/devices/ABC123/status"
     = Some "https://api.switch-bot.com/v1.1/devices/ABC123/status"
  /\ RefURL.request_url "https://api.switch-bot.com/v1.1/devices/AB C/status"
     = Some "https://api.switch-bot.com/v1.1/devices/AB%20C/status"
  /\ RefURL.request_url "https://api.switch-bot.com/v1.1/devices/A#B/status"
     = Some "https://api.switch-bot.com/v1.1/devices/A"
  /\ RefURL.request_url "https://api.switch-bot.com/v1.1/devices/A?B/status"
     = Some "https://api.switch-bot.com/v1.1/devices/A?B/status"
  /\ RefURL.request_url "https://api.switch-bot.com/v1.1/devices/A%2FB/status"
     = Some "https://api.switch-bot.com/v1.1/devices/A%2FB/status"
  /\ RefURL.request_url "https://api.switch-bot.com/v1.1/devices/A%zz/status"
     = None.
Proof. vm_compute. repeat split. Qed.









(** ** The program

    In the statements below [+:+] is the concatenation of strings and
    [++] the concatenation of lists. *)

Section Properties.
Context `{Platform}.
Import GoBytes.

(** *** Steps of the run *)

Lemma add_headers_id (headers : gmap string string) :
  add_headers headers = headers.
Proof.
  unfold add_headers.
  apply (map_fold_weak_ind (fun (r m : gmap string string) => r = m)).
  - reflexivity.
  - intros i x m r _ ->. reflexivity.
Qed.

Lemma createHeaders_run token secret w :
  exists hdrs,
    createHeaders token secret w = (Done (hdrs, None), after_headers w)
    /\ hdrs = <["nonce" := uuid_src w (uuid_calls w)]>
             (<["sign" := signature token secret (millis w)
                                    (uuid_src w (uuid_calls w))]>
             (<["t" := Fmt.d (millis w)]>
             (<["charset" := "utf-8"]>
             (<["Content-Type" := "application/json"]>
             (<["Authorization" := token]> ∅))))).
Proof. eexists. split; reflexivity. Qed.

Lemma Getenv_set w key v :
  environ w !! key = Some v -> Getenv key w = (Done v, w).
Proof. unfold Getenv. by intros ->. Qed.

Lemma Getenv_empty w key :
  unset_or_empty w key -> Getenv key w = (Done "", w).
Proof. unfold Getenv. by intros [-> | ->]. Qed.

Lemma print_run s w :
  print s w = (Done tt, set_stdout (stdout w ++ [s])%list w).
Proof. reflexivity. Qed.

Lemma callSwitchBotAPI_ok url hdrs w body :
  http_NewRequest "GET" url = None ->
  server w (length (sent w)) (mkRequest "GET" url hdrs) = Response 200 body None ->
  callSwitchBotAPI url hdrs w
  = (Done (Some body, None), after_call (mkRequest "GET" url hdrs) w).
Proof.
  intros Hreq Hsrv. unfold callSwitchBotAPI, bind, client_Do.
  rewrite Hreq, add_headers_id, Hsrv. reflexivity.
Qed.

Lemma status_call_ok w apiHeader deviceID body w3 r :
  status_answer w apiHeader deviceID body ->
  server w3 = server w -> sent w3 = (sent w ++ [r])%list ->
  callSwitchBotAPI
    ("https://api.switch-bot.com/v1.1/devices/" +:+ deviceID +:+ "/status")
    apiHeader w3
  = (Done (Some body, None),
     after_call (mkRequest "GET" (apiURLDeviceStatus deviceID) apiHeader) w3).
Proof.
  intros [Hreq Hsrv] Hs Hsent.
  apply (callSwitchBotAPI_ok (apiURLDeviceStatus deviceID)); [exact Hreq|].
  rewrite Hs, Hsent, length_app, Nat.add_1_r. exact Hsrv.
Qed.



(** Any call sends at most one request and draws no nonce and no time. *)
Lemma callSwitchBotAPI_frame url hdrs w :
  exists r w',
    callSwitchBotAPI url hdrs w = (Done r, w')
    /\ (sent w' = sent w
        \/ sent w' = (sent w ++ [mkRequest "GET" url hdrs])%list)
    /\ uuid_calls w' = uuid_calls w /\ clock_reads w' = clock_reads w.
Proof.
  unfold callSwitchBotAPI, bind, client_Do. rewrite add_headers_id.
  destruct (http_NewRequest "GET" url); [cbn; eauto 10|].
  destruct (server w _ _) as [err | code body [err|]]; cbn;
    try destruct (code =? 200); cbn; eauto 10.
Qed.

Lemma callSwitchBotAPI_error_nil url headers w b e :
  fst (callSwitchBotAPI url headers w) = Done (b, Some e) -> b = None.
Proof.
  unfold callSwitchBotAPI, bind, client_Do.
  destruct (http_NewRequest "GET" url); [cbn; congruence|].
  destruct (server w _ _) as [err | code body [err|]]; cbn;
    try destruct (code =? 200); cbn; congruence.
Qed.

Lemma soft_string v s ok :
  as_string (default JNull v) = (s, ok) ->
  (if negb ok then "N/A" else s) = string_or_NA v.
Proof. destruct v as [[]|]; cbn; intros [= <- <-]; reflexivity. Qed.

Lemma soft_float64 v x ok :
  as_float64 (default JNull v) = (x, ok) ->
  Fmt.f 2 (if negb ok then S754_zero false else x) = two_decimals_or_zero v.
Proof. destruct v as [[]|]; cbn; intros [= <- <-]; reflexivity. Qed.

Lemma quiet_print s : quiet (print s).
Proof. intros v. cbn. auto. Qed.

Lemma quiet_panic p : quiet (panic p).
Proof. intros v. cbn. auto. Qed.

Lemma quiet_bind_print s (k : M unit) :
  quiet k -> quiet (let* _ := print s in k).
Proof.
  intros Hk v. unfold bind. rewrite print_run.
  destruct (Hk (set_stdout (stdout v ++ [s])%list v)) as (? & ? & ?).
  cbn in *. auto.
Qed.

Ltac go := cbv beta iota zeta.

(** The last stage of [main], lines 148-182, only prints. *)
Lemma report_quiet (statusResponse : gmap string json) :
  quiet
    (let '(body, ok) := as_map (index statusResponse "body") in
     if negb ok then
       Println "Error: response body is missing or not in expected format."
     else
     let '(deviceIDStatus, ok) := as_string (index body "deviceId") in
     let deviceIDStatus := if negb ok then "N/A" else deviceIDStatus in
     let '(deviceType, ok) := as_string (index body "deviceType") in
     let deviceType := if negb ok then "N/A" else deviceType in
     let '(hubDeviceId, ok) := as_string (index body "hubDeviceId") in
     let hubDeviceId := if negb ok then "N/A" else hubDeviceId in
     let '(humidity, ok) := as_float64 (index body "humidity") in
     let humidity := if negb ok then S754_zero false else humidity in
     let '(temperature, ok) := as_float64 (index body "temperature") in
     let temperature := if negb ok then S754_zero false else temperature in
     let* _ := print ("Device ID: " +:+ deviceIDStatus +:+ Fmt.nl) in
     let* _ := print ("Device Type: " +:+ deviceType +:+ Fmt.nl) in
     let* _ := print ("Hub Device ID: " +:+ hubDeviceId +:+ Fmt.nl) in
     let* _ := print ("Humidity: " +:+ Fmt.f 2 humidity +:+ Fmt.nl) in
     print ("Temperature: " +:+ Fmt.f 2 temperature +:+ degreeC +:+ Fmt.nl)).
Proof.
  destruct (as_map _) as [body []]; cbn [negb];
    [|unfold Println; apply quiet_print].
  repeat (destruct (as_string _) as [? ?]).
  repeat (destruct (as_float64 _) as [? ?]).
  go. do 4 apply quiet_bind_print. apply quiet_print.
Qed.

(** Symbolic execution of [main] up to the decoding of the devices
    response, from a [devices_answer]. *)
Ltac run_devices w Hdev :=
  let token := fresh "token" in
  let secret := fresh "secret" in
  let Ht := fresh "Ht" in let Htne := fresh "Htne" in
  let Hs := fresh "Hs" in let Hsne := fresh "Hsne" in
  let Hh := fresh "Hh" in let Hreq := fresh "Hreq" in
  let Hsrv := fresh "Hsrv" in let Hrun := fresh "Hrun" in
  let hdrs := fresh "hdrs" in
  destruct Hdev as (token & secret & Ht & Htne & Hs & Hsne & Hh & Hreq & Hsrv);
  destruct (createHeaders_run token secret w) as (hdrs & Hrun & _);
  rewrite Hrun in Hh; simpl in Hh; injection Hh as ->;
  unfold main; unfold bind at 1; rewrite (Getenv_set _ _ _ Ht); go;
  unfold bind at 1; rewrite (Getenv_set _ _ _ Hs); go;
  apply String.eqb_neq in Htne, Hsne; rewrite Htne, Hsne; cbn [orb]; go;
  unfold bind at 1; rewrite Hrun; go;
  unfold bind at 1;
  (let Hc := fresh "Hc" in
   pose proof (callSwitchBotAPI_ok _ _ (after_headers w) _ Hreq Hsrv) as Hc;
   unfold apiURLDevices in Hc; rewrite Hc; clear Hc); go;
  unfold bind at 1; rewrite print_run; go; cbn [slice].

(** ... then up to the status call, from a [first_device_id]. *)
Ltac run_select Hjson Hfirst :=
  let body := fresh "body" in
  let firstDevice := fresh "firstDevice" in
  let rest := fresh "rest" in
  let Hb := fresh "Hb" in let Hl := fresh "Hl" in let Hi := fresh "Hi" in
  destruct Hfirst as (body & firstDevice & rest & Hb & Hl & Hi);
  rewrite Hjson; unfold index;
  unfold bind at 1; rewrite Hb; cbn [default from_option assert_map ret id];
  unfold bind at 1; rewrite Hl; cbn [default from_option assert_slice ret id];
  unfold bind at 1; cbn [assert_map ret];
  unfold bind at 1; rewrite Hi; cbn [default from_option assert_string ret id];
  unfold bind at 1; rewrite print_run; go.

(** ... then up to the decoding of the status response, from a
    [status_answer]. *)
Ltac run_status Hst :=
  unfold bind at 1;
  erewrite (status_call_ok _ _ _ _ _ _ Hst); [ | reflexivity | reflexivity ]; go;
  unfold bind at 1; rewrite print_run; go; cbn [slice].

(** *** The claims *)

(** C1, as amended.  In every run that sends two requests, the status
    request carries the very header set of the devices request:
    [createHeaders] ran once, at the start, on the world [w], and the run
    drew one nonce and read the clock once. *)
Theorem headers_reused_for_status_call w o w' first second :
  main w = (o, w') ->
  sent w' = (sent w ++ [first; second])%list ->
  rq_headers second = rq_headers first
  /\ (exists token secret,
        fst (createHeaders token secret w) = Done (rq_headers first, None))
  /\ uuid_calls w' = S (uuid_calls w)
  /\ clock_reads w' = S (clock_reads w).
Proof.
  intros Hmain Hsent. revert Hmain. unfold main.
  unfold bind at 1. unfold Getenv at 1. go.
  unfold bind at 1. unfold Getenv at 1. go.
  set (token := default "" (environ w !! "SWITCHBOT_TOKEN")).
  set (secret := default "" (environ w !! "SWITCHBOT_API_KEY")).
  assert (Hnil : forall l : list Request, sent w = (sent w ++ l)%list -> l = []).
  { intros l Hl. rewrite <- (app_nil_r (sent w)) in Hl at 1.
    by apply app_inv_head in Hl. }
  destruct ((token =? "")%string || (secret =? "")%string).
  { intros [= <- <-]. cbn in Hsent. apply Hnil in Hsent. discriminate. }
  destruct (createHeaders_run token secret w) as (hdrs & Hrun & _).
  unfold bind at 1. rewrite Hrun. go.
  destruct (callSwitchBotAPI_frame "https://api.switch-bot.com/v1.1/devices"
              hdrs (after_headers w))
    as ([b1 e1] & w1 & Hc1 & Hs1 & Hu1 & Hk1).
  unfold bind at 1. rewrite Hc1. go.
  assert (Hquiet : forall (c : M unit) v, quiet c ->
            (sent v = sent w \/ exists r, sent v = (sent w ++ [r])%list) ->
            c v = (o, w') -> False).
  { intros c v Hq Hv Hc. destruct (Hq v) as (Hqs & _).
    rewrite Hc in Hqs. cbn in Hqs.
    rewrite Hqs in Hsent. destruct Hv as [Hv | [r Hv]]; rewrite Hv in Hsent.
    - apply Hnil in Hsent. discriminate.
    - apply app_inv_head in Hsent. discriminate. }
  assert (Hv1 : sent w1 = sent w \/ exists r, sent w1 = (sent w ++ [r])%list).
  { destruct Hs1 as [-> | ->]; cbn; eauto. }
  destruct e1 as [e1|].
  { intros Hm. exfalso.
    match type of Hm with ?c ?v = _ =>
      exact (Hquiet c v (quiet_print _) Hv1 Hm) end. }
  unfold bind at 1. rewrite print_run. go.
  set (w2 := set_stdout _ w1).
  assert (Hv2 : sent w2 = sent w \/ exists r, sent w2 = (sent w ++ [r])%list)
    by exact Hv1.
  destruct (json_Unmarshal (slice b1)) as [e|devicesResponse].
  { intros Hm. exfalso.
    match type of Hm with ?c ?v = _ =>
      exact (Hquiet c v (quiet_print _) Hv2 Hm) end. }
  unfold bind at 1.
  destruct (index devicesResponse "body") as [| | | | |body];
    try (cbn [assert_map assert_slice assert_string panic dynamic_type]; go;
         intros Hm; exfalso;
         exact (Hquiet (panic _) w2 (quiet_panic _) Hv2 Hm)).
  cbn [assert_map ret]. unfold bind at 1.
  destruct (index body "deviceList") as [| | | | devices|];
    try (cbn [assert_map assert_slice assert_string panic dynamic_type]; go;
         intros Hm; exfalso;
         exact (Hquiet (panic _) w2 (quiet_panic _) Hv2 Hm)).
  cbn [assert_slice ret].
  destruct devices as [|devices_0 rest].
  { intros Hm. exfalso.
    match type of Hm with ?c ?v = _ =>
      exact (Hquiet c v (quiet_print _) Hv2 Hm) end. }
  unfold bind at 1.
  destruct devices_0 as [| | | | |firstDevice];
    try (cbn [assert_map assert_slice assert_string panic dynamic_type]; go;
         intros Hm; exfalso;
         exact (Hquiet (panic _) w2 (quiet_panic _) Hv2 Hm)).
  cbn [assert_map ret]. unfold bind at 1.
  destruct (index firstDevice "deviceId") as [| | |deviceID | |];
    try (cbn [assert_map assert_slice assert_string panic dynamic_type]; go;
         intros Hm; exfalso;
         exact (Hquiet (panic _) w2 (quiet_panic _) Hv2 Hm)).
  cbn [assert_string ret].
  unfold bind at 1. rewrite print_run. go.
  set (w3 := set_stdout _ w2).
  match goal with |- context [callSwitchBotAPI ?u hdrs] =>
    destruct (callSwitchBotAPI_frame u hdrs w3)
      as ([b2 e2] & w4 & Hc2 & Hs2 & Hu2 & Hk2)
  end.
  unfold bind at 1. rewrite Hc2. go.
  intros Hm.
  assert (Hfin : sent w' = sent w4 /\ uuid_calls w' = uuid_calls w4
                 /\ clock_reads w' = clock_reads w4).
  { assert (Hq : forall c : M unit, quiet c -> c w4 = (o, w') ->
              sent w' = sent w4 /\ uuid_calls w' = uuid_calls w4
              /\ clock_reads w' = clock_reads w4).
    { intros c Hq Hc. specialize (Hq w4). rewrite Hc in Hq. exact Hq. }
    destruct e2 as [e2|];
      [match type of Hm with ?c ?v = _ =>
         exact (Hq c (quiet_print _) Hm) end|].
    match type of Hm with ?c ?v = _ => apply (Hq c); [|exact Hm] end.
    apply quiet_bind_print.
    destruct (json_Unmarshal (slice b2)); [apply quiet_print|].
    apply report_quiet. }
  destruct Hfin as (Hf1 & Hf2 & Hf3).
  rewrite Hf2, Hf3, Hu2, Hk2. cbn [uuid_calls clock_reads w3 w2 set_stdout].
  rewrite Hu1, Hk1.
  cbn [uuid_calls clock_reads after_headers set_clock_reads set_uuid_calls].
  rewrite Hf1 in Hsent.
  assert (Hreqs : first = mkRequest "GET" "https://api.switch-bot.com/v1.1/devices" hdrs
                  /\ rq_headers second = hdrs).
  { destruct Hs2 as [Hs2 | Hs2]; rewrite Hs2 in Hsent; cbn in Hsent;
      destruct Hs1 as [Hs1 | Hs1]; rewrite Hs1 in Hsent; cbn in Hsent.
    - apply Hnil in Hsent. discriminate.
    - apply app_inv_head in Hsent. discriminate.
    - apply app_inv_head in Hsent. discriminate.
    - rewrite <- app_assoc in Hsent. apply app_inv_head in Hsent.
      injection Hsent as <- <-. split; reflexivity. }
  destruct Hreqs as [-> Hsecond].
  split; [exact Hsecond|].
  split; [exists token, secret; rewrite Hrun; reflexivity|].
  split; reflexivity.
Qed.

(** C2.  [createHeaders] returns a map with exactly six entries:
    [Authorization] is the raw token, [Content-Type] is
    [application/json], [charset] is [utf-8], [t] is the decimal
    millisecond timestamp, [nonce] is the generated nonce, and [sign] is
    the standard base64 of HMAC-SHA256, keyed by the secret, over token,
    decimal timestamp and nonce without separators.  The header set is a
    function of token, secret, timestamp and nonce: any world that yields
    the same nonce and timestamp yields the same set. *)
Theorem createHeaders_six_entries token secret w :
  let nonce := uuid_src w (uuid_calls w) in
  let t := Int64.div (Int64.wrap (clock_src w (clock_reads w))) Millisecond in
  exists hdrs w',
    createHeaders token secret w = (Done (hdrs, None), w')
    /\ size hdrs = 6%nat
    /\ dom hdrs = ({[ "Authorization"; "Content-Type"; "charset";
                      "t"; "sign"; "nonce" ]} : gset string)
    /\ hdrs !! "Authorization" = Some token
    /\ hdrs !! "Content-Type" = Some "application/json"
    /\ hdrs !! "charset" = Some "utf-8"
    /\ hdrs !! "t" = Some (Fmt.d t)
    /\ hdrs !! "nonce" = Some nonce
    /\ hdrs !! "sign"
       = Some (Base64.EncodeToString
                 (Hmac.SumSHA256 (of_string secret)
                    (of_string (token +:+ Fmt.d t +:+ nonce))))
    /\ hdrs !! "sign" = Some (signature token secret t nonce)
    /\ (forall w2,
          uuid_src w2 (uuid_calls w2) = nonce -> millis w2 = t ->
          fst (createHeaders token secret w2) = Done (hdrs, None)).
Proof.
  intros nonce t.
  destruct (createHeaders_run token secret w) as (hdrs & Hrun & ->).
  eexists _, _. split; [exact Hrun|].
  split.
  { rewrite !map_size_insert_None; [reflexivity | by simplify_map_eq ..]. }
  split.
  { rewrite !dom_insert_L, dom_empty_L. set_solver. }
  do 7 (split; [by simplify_map_eq|]).
  intros w2 Hn Ht.
  destruct (createHeaders_run token secret w2) as (hdrs2 & Hrun2 & ->).
  rewrite Hrun2, Hn, Ht. reflexivity.
Qed.

(** C3.  [createHeaders] never fails: for every token, secret and world
    it returns a header map and a nil error; it returns no error and
    raises no panic. *)
Theorem createHeaders_never_fails token secret w :
  (exists hdrs w', createHeaders token secret w = (Done (hdrs, None), w'))
  /\ (forall hdrs e, fst (createHeaders token secret w) <> Done (hdrs, Some e))
  /\ (forall p, fst (createHeaders token secret w) <> Panicked p).
Proof.
  destruct (createHeaders_run token secret w) as (hdrs & Hrun & _).
  rewrite Hrun. split; [eauto|]. split; intros; simpl; discriminate.
Qed.

(** C4.  When the request is built and the server gives a response: a
    status other than 200 yields an error that carries the status code
    and no body; status 200 with a body read to its end yields exactly
    that body and no error; status 200 with a body whose reading fails
    yields a read error that carries the cause and no body.  Whenever
    [callSwitchBotAPI] returns an error, in any world, the returned body
    is nil.  On each of the three paths the request was sent once and
    the response body closed. *)
Theorem callSwitchBotAPI_on_response url headers w StatusCode body read_err :
  http_NewRequest "GET" url = None ->
  server w (length (sent w)) (mkRequest "GET" url headers)
    = Response StatusCode body read_err ->
  let result := fst (callSwitchBotAPI url headers w) in
  (StatusCode <> 200 ->
     result = Done (None, Some ("error: API request failed with status code "
                                +:+ Fmt.d StatusCode)))
  /\ (StatusCode = 200 -> read_err = None -> result = Done (Some body, None))
  /\ (StatusCode = 200 -> forall cause, read_err = Some cause ->
       result = Done (None, Some ("error reading response body: " +:+ cause)))
  /\ (forall url' headers' w' b e,
       fst (callSwitchBotAPI url' headers' w') = Done (b, Some e) -> b = None)
  /\ sent (snd (callSwitchBotAPI url headers w))
     = (sent w ++ [mkRequest "GET" url headers])%list
  /\ closed (snd (callSwitchBotAPI url headers w)) = S (closed w).
Proof.
  intros Hreq Hsrv result. subst result.
  assert (Hrun : callSwitchBotAPI url headers w
    = (Done (if negb (StatusCode =? 200)
             then (None, Some ("error: API request failed with status code "
                               +:+ Fmt.d StatusCode))
             else match read_err with
                  | Some cause =>
                      (None, Some ("error reading response body: " +:+ cause))
                  | None => (Some body, None)
                  end),
       after_call (mkRequest "GET" url headers) w)).
  { unfold callSwitchBotAPI, bind, client_Do.
    rewrite Hreq, add_headers_id, Hsrv.
    destruct (StatusCode =? 200), read_err; reflexivity. }
  rewrite Hrun. cbn [fst snd].
  split.
  { intros Hne. apply Z.eqb_neq in Hne. rewrite Hne. reflexivity. }
  split.
  { intros -> ->. reflexivity. }
  split.
  { intros -> cause ->. reflexivity. }
  split.
  { intros url' headers' w' b e. apply callSwitchBotAPI_error_nil. }
  split; reflexivity.
Qed.

(** C5.  When the token variable or the secret variable is unset or
    empty, the run prints the configuration error and returns: no
    request is sent, no nonce is drawn and the clock is not read. *)
Theorem missing_credentials_abort w :
  unset_or_empty w "SWITCHBOT_TOKEN" \/ unset_or_empty w "SWITCHBOT_API_KEY" ->
  exists w',
    main w = (Done tt, w')
    /\ stdout w' = (stdout w ++
          ["Error: SWITCHBOT_TOKEN or SWITCHBOT_API_KEY environment variable is not set"
           +:+ Fmt.nl])%list
    /\ sent w' = sent w
    /\ uuid_calls w' = uuid_calls w
    /\ clock_reads w' = clock_reads w.
Proof.
  intros Hmiss. unfold main, bind.
  destruct Hmiss as [Ht | Hs].
  - rewrite (Getenv_empty _ _ Ht).
    destruct (Getenv "SWITCHBOT_API_KEY" w) as [[secret|p] w1] eqn:E;
      unfold Getenv in E; simplify_eq.
    simpl. eexists. split; [reflexivity|]. done.
  - destruct (Getenv "SWITCHBOT_TOKEN" w) as [[token|p] w1] eqn:E;
      unfold Getenv in E; simplify_eq.
    rewrite (Getenv_empty _ _ Hs).
    rewrite orb_true_r.
    eexists. split; [reflexivity|]. done.
Qed.

(** C6.  When the decoded devices response has an empty [deviceList]
    under an object [body], the run prints the raw body, then
    [No devices found.], and returns normally having sent the devices
    request only. *)
Theorem empty_device_list w apiHeader bodyDevices devicesResponse body :
  devices_answer w apiHeader bodyDevices ->
  json_Unmarshal bodyDevices = inr devicesResponse ->
  devicesResponse !! "body" = Some (JObj body) ->
  body !! "deviceList" = Some (JArr []) ->
  exists w',
    main w = (Done tt, w')
    /\ stdout w' = (stdout w ++
          ["Response from /devices: " +:+ to_string bodyDevices +:+ Fmt.nl;
           "No devices found." +:+ Fmt.nl])%list
    /\ sent w' = (sent w ++ [mkRequest "GET" apiURLDevices apiHeader])%list.
Proof.
  intros Hdev Hjson Hbody Hlist.
  run_devices w Hdev.
  rewrite Hjson. unfold index.
  unfold bind at 1. rewrite Hbody. cbn [default from_option assert_map ret id].
  unfold bind at 1. rewrite Hlist. cbn [default from_option assert_slice ret id].
  eexists. split; [reflexivity|]. cbn. rewrite <- app_assoc. done.
Qed.


(** C8.  When the decoded status response has an object [body], the run
    ends normally with the five report lines, where each string field
    that is missing or not a string reads [N/A], and each numeric field
    that is missing or not a number reads [0.00]; a numeric field that
    is a number is printed with [%.2f].  A missing [humidity] prints
    [Humidity: 0.00], the number 55.5 prints [Humidity: 55.50], and a
    finite number prints with exactly two digits after the point. *)
Theorem status_report
        w apiHeader bodyDevices devicesResponse deviceID
        bodyDeviceStatus statusResponse body :
  devices_answer w apiHeader bodyDevices ->
  json_Unmarshal bodyDevices = inr devicesResponse ->
  first_device_id devicesResponse deviceID ->
  status_answer w apiHeader deviceID bodyDeviceStatus ->
  json_Unmarshal bodyDeviceStatus = inr statusResponse ->
  statusResponse !! "body" = Some (JObj body) ->
  exists w',
    main w = (Done tt, w')
    /\ stdout w' = (stdout w ++
         [ "Response from /devices: " +:+ to_string bodyDevices +:+ Fmt.nl;
           "Using deviceId: " +:+ deviceID +:+ Fmt.nl;
           "Response from /devices/{deviceId}/status: "
             +:+ to_string bodyDeviceStatus +:+ Fmt.nl;
           "Device ID: " +:+ string_or_NA (body !! "deviceId") +:+ Fmt.nl;
           "Device Type: " +:+ string_or_NA (body !! "deviceType") +:+ Fmt.nl;
           "Hub Device ID: " +:+ string_or_NA (body !! "hubDeviceId") +:+ Fmt.nl;
           "Humidity: " +:+ two_decimals_or_zero (body !! "humidity") +:+ Fmt.nl;
           "Temperature: " +:+ two_decimals_or_zero (body !! "temperature")
             +:+ degreeC +:+ Fmt.nl ])%list
    /\ (body !! "humidity" = None ->
        stdout w' !! (length (stdout w) + 6)%nat
        = Some ("Humidity: 0.00" +:+ Fmt.nl))
    /\ (body !! "humidity" = Some (JNum f55_5) ->
        stdout w' !! (length (stdout w) + 6)%nat
        = Some ("Humidity: 55.50" +:+ Fmt.nl))
    /\ (forall key x, body !! key = Some (JNum x) -> finite x = true ->
        two_decimals (two_decimals_or_zero (body !! key))).
Proof.
  intros Hdev Hjson Hfirst Hst Hjson2 Hbody.
  run_devices w Hdev. run_select Hjson Hfirst. run_status Hst.
  rewrite Hjson2. rewrite Hbody. cbn [default from_option as_map id negb]. go.
  destruct (as_string (default JNull (body !! "deviceId"))) as [s1 ok1] eqn:E1.
  destruct (as_string (default JNull (body !! "deviceType"))) as [s2 ok2] eqn:E2.
  destruct (as_string (default JNull (body !! "hubDeviceId"))) as [s3 ok3] eqn:E3.
  destruct (as_float64 (default JNull (body !! "humidity"))) as [x4 ok4] eqn:E4.
  destruct (as_float64 (default JNull (body !! "temperature"))) as [x5 ok5] eqn:E5.
  rewrite (soft_string _ _ _ E1), (soft_string _ _ _ E2), (soft_string _ _ _ E3).
  rewrite (soft_float64 _ _ _ E4), (soft_float64 _ _ _ E5).
  eexists. split; [reflexivity|].
  assert (Hout : forall l1 l2 l3 l4 l5 l6 l7 l8 : string,
    (((((((((stdout w ++ [l1]) ++ [l2]) ++ [l3]) ++ [l4]) ++ [l5]) ++ [l6])
        ++ [l7]) ++ [l8])
     = stdout w ++ [l1; l2; l3; l4; l5; l6; l7; l8])%list).
  { intros. rewrite <- !app_assoc. reflexivity. }
  cbn [stdout set_stdout after_call after_headers set_closed set_sent
       set_clock_reads set_uuid_calls].
  rewrite Hout.
  split; [reflexivity|].
  split; [|split].
  - intros Hh. rewrite lookup_app_r by lia.
    replace (length (stdout w) + 6 - length (stdout w))%nat with 6%nat by lia.
    rewrite Hh. reflexivity.
  - intros Hh. rewrite lookup_app_r by lia.
    replace (length (stdout w) + 6 - length (stdout w))%nat with 6%nat by lia.
    rewrite Hh. reflexivity.
  - intros key x Hk Hx. rewrite Hk. apply f2_shape, Hx.
Qed.

(** C9.  A malformed mandatory container ends the run.  When the decoded
    devices response has no object [body] with a list [deviceList], the
    run panics at the failed type assertion (the runtime reports the
    interface conversion), after printing the raw body only and without
    a second request.  When the decoded status response has no object
    [body], the run prints the format error and returns, without any
    report line. *)
Theorem malformed_container_aborts w apiHeader bodyDevices devicesResponse :
  devices_answer w apiHeader bodyDevices ->
  json_Unmarshal bodyDevices = inr devicesResponse ->
  (~ has_device_list devicesResponse ->
   exists p w',
     main w = (Panicked p, w')
     /\ (p = InterfaceConversion (dynamic_type (index devicesResponse "body")) TMap
         \/ exists body, devicesResponse !! "body" = Some (JObj body)
              /\ p = InterfaceConversion
                       (dynamic_type (index body "deviceList")) TSlice)
     /\ (exists cause,
           crash_report (Panicked p)
           = Some ("panic: interface conversion: interface {} is " +:+ cause))
     /\ stdout w' = (stdout w ++
           ["Response from /devices: " +:+ to_string bodyDevices +:+ Fmt.nl])%list
     /\ sent w' = (sent w ++ [mkRequest "GET" apiURLDevices apiHeader])%list)
  /\ (forall deviceID bodyDeviceStatus statusResponse,
       first_device_id devicesResponse deviceID ->
       status_answer w apiHeader deviceID bodyDeviceStatus ->
       json_Unmarshal bodyDeviceStatus = inr statusResponse ->
       ~ has_body statusResponse ->
       exists w',
         main w = (Done tt, w')
         /\ stdout w' = (stdout w ++
           [ "Response from /devices: " +:+ to_string bodyDevices +:+ Fmt.nl;
             "Using deviceId: " +:+ deviceID +:+ Fmt.nl;
             "Response from /devices/{deviceId}/status: "
               +:+ to_string bodyDeviceStatus +:+ Fmt.nl;
             "Error: response body is missing or not in expected format."
               +:+ Fmt.nl ])%list).
Proof.
  intros Hdev Hjson. split.
  - intros Hno. run_devices w Hdev. rewrite Hjson. unfold bind at 1.
    destruct (index devicesResponse "body") as [| | | | |body] eqn:Eb;
      try (cbn; eexists _, _; split; [reflexivity|];
           split; [left; reflexivity|];
           split; [eexists; reflexivity|]; cbn; done).
    cbn [assert_map ret]. unfold bind at 1.
    assert (Hb : devicesResponse !! "body" = Some (JObj body)).
    { unfold index in Eb.
      destruct (devicesResponse !! "body"); cbn in Eb; congruence. }
    destruct (index body "deviceList") as [| | | | l|] eqn:El;
      try (cbn; eexists _, _; split; [reflexivity|]; split;
           [right; exists body; rewrite El; split; [exact Hb | reflexivity]|];
           split; [eexists; reflexivity|]; cbn; done).
    exfalso. apply Hno. exists body, l. split; [exact Hb|].
    unfold index in El. destruct (body !! "deviceList"); cbn in El; congruence.
  - intros deviceID bodyDeviceStatus statusResponse Hfirst Hst Hjson2 Hno.
    run_devices w Hdev. run_select Hjson Hfirst. run_status Hst.
    rewrite Hjson2.
    destruct (statusResponse !! "body") as [[| | | | |sbody]|] eqn:Eb;
      try (cbn; eexists; split; [reflexivity|]; cbn; rewrite <- !app_assoc; done).
    exfalso. apply Hno. exists sbody. exact Eb.
Qed.

(** C10.  When the [deviceList] of the decoded devices response is not
    empty and its first element is not an object, or is an object
    without a string under [deviceId], the run panics at the identifier
    extraction: at the assertion to an object in the first case, at the
    assertion to a string in the second.  The program prints nothing
    after the raw devices body (no [N/A], no diagnostic of its own) and
    sends no second request. *)
Theorem unusable_first_device_panics
        w apiHeader bodyDevices devicesResponse first :
  devices_answer w apiHeader bodyDevices ->
  json_Unmarshal bodyDevices = inr devicesResponse ->
  first_device_unusable devicesResponse first ->
  exists p w',
    main w = (Panicked p, w')
    /\ p = match first with
           | JObj firstDevice =>
               InterfaceConversion
                 (dynamic_type (index firstDevice "deviceId")) TString
           | _ => InterfaceConversion (dynamic_type first) TMap
           end
    /\ exit_code (Panicked p) = 2
    /\ stdout w' = (stdout w ++
          ["Response from /devices: " +:+ to_string bodyDevices +:+ Fmt.nl])%list
    /\ sent w' = (sent w ++ [mkRequest "GET" apiURLDevices apiHeader])%list.
Proof.
  intros Hdev Hjson [(body & rest & Hb & Hl) Hno].
  run_devices w Hdev. rewrite Hjson. unfold index.
  unfold bind at 1. rewrite Hb. cbn [default from_option assert_map ret id].
  unfold bind at 1. rewrite Hl. cbn [default from_option assert_slice ret id].
  unfold bind at 1.
  destruct first as [| | | | |firstDevice];
    try (cbn; eexists _, _; split; [reflexivity|]; cbn; done).
  cbn [assert_map ret]. unfold bind at 1.
  destruct (firstDevice !! "deviceId") as [[| | |deviceID| |]|] eqn:Ei;
    try (cbn; eexists _, _; split; [reflexivity|]; cbn; rewrite ?Ei; done).
  exfalso. apply Hno. eauto.
Qed.

End Properties.

(** ** The claims on the sample worlds

    The runs below use the reference platform: every hypothesis of the
    theorems above is discharged by evaluation. *)

Import Sample.


(** The whole output of the run on [w_ok]. *)
Example run_w_ok :
  fst (main (H := RefPlatform) w_ok) = Done tt
  /\ stdout (snd (main (H := RefPlatform) w_ok))
     = [ "Response from /devices: " +:+ quoted devices_ABC123 +:+ Fmt.nl;
         "Using deviceId: ABC123" +:+ Fmt.nl;
         "Response from /devices/{deviceId}/status: " +:+ quoted status_full
           +:+ Fmt.nl;
         "Device ID: ABC123" +:+ Fmt.nl;
         "Device Type: Meter" +:+ Fmt.nl;
         "Hub Device ID: FFEEDD" +:+ Fmt.nl;
         "Humidity: 55.50" +:+ Fmt.nl;
         "Temperature: 21.05" +:+ degreeC +:+ Fmt.nl ]
  /\ closed (snd (main (H := RefPlatform) w_ok)) = 2%nat.
Proof. vm_compute. repeat split. Qed.

(** A 404 from the devices endpoint ends the run after one request. *)
Example run_w_404 :
  stdout (snd (main (H := RefPlatform) w_404))
  = [ "Error calling /devices API: error: API request failed with status code 404"
      +:+ Fmt.nl ]
  /\ length (sent (snd (main (H := RefPlatform) w_404))) = 1%nat.
Proof. vm_compute. repeat split. Qed.

Lemma sample_devices_answer (second : Reply) (text : string) :
  devices_answer (H := RefPlatform) (world credentials (ok text) second)
                 headers (json_text text).
Proof.
  exists "token", "secret".
  split; [reflexivity|]. split; [discriminate|].
  split; [reflexivity|]. split; [discriminate|].
  split; [vm_compute; reflexivity|].
  split; [vm_compute; reflexivity|]. reflexivity.
Defined.

Lemma sample_status_answer (first : Reply) (text : string) :
  status_answer (H := RefPlatform) (world credentials first (ok text))
                headers "ABC123" (json_text text).
Proof. split; [vm_compute; reflexivity | reflexivity]. Defined.

Lemma sample_first_device_id :
  first_device_id (decoded devices_ABC123) "ABC123".
Proof.
  exists (object_at (decoded devices_ABC123) "body").
  eexists. eexists.
  split; [vm_compute; reflexivity|]. split; vm_compute; reflexivity.
Defined.

Lemma sample_two_requests :
  sent (snd (main (H := RefPlatform) w_ok))
  = (sent w_ok ++ [ mkRequest "GET" apiURLDevices headers;
                    mkRequest "GET" (apiURLDeviceStatus "ABC123") headers ])%list.
Proof. vm_compute. reflexivity. Defined.

Lemma headers_reused_for_status_call_witness :
  exists first second,
    sent (snd (main (H := RefPlatform) w_ok)) = [first; second]
    /\ rq_headers second = rq_headers first
    /\ uuid_calls (snd (main (H := RefPlatform) w_ok)) = 1%nat
    /\ clock_reads (snd (main (H := RefPlatform) w_ok)) = 1%nat.
Proof.
  exists (mkRequest "GET" apiURLDevices headers),
         (mkRequest "GET" (apiURLDeviceStatus "ABC123") headers).
  destruct (headers_reused_for_status_call (H := RefPlatform) w_ok
              (fst (main (H := RefPlatform) w_ok))
              (snd (main (H := RefPlatform) w_ok))
              (mkRequest "GET" apiURLDevices headers)
              (mkRequest "GET" (apiURLDeviceStatus "ABC123") headers)
              (surjective_pairing _) sample_two_requests)
    as (Hsame & _ & Hu & Hc).
  split; [exact sample_two_requests|].
  split; [exact Hsame|]. split; [exact Hu | exact Hc].
Defined.

(** On [w_ok] the run sends two requests with one and the same header set,
    built from the first nonce and the first clock reading, although the
    UUID source and the clock had a second, different value to give: the
    property [fresh_headers_per_call] fails there. *)
Lemma fresh_headers_per_call_counterexample :
  (exists first second,
     sent (snd (main (H := RefPlatform) w_ok)) = [first; second]
     /\ rq_headers second = rq_headers first
     /\ rq_headers second !! "nonce" = Some (uuid_src w_ok 0)
     /\ uuid_src w_ok 1 <> uuid_src w_ok 0
     /\ rq_headers second !! "t" = Some "1700000000000"
     /\ Fmt.d (millis (after_headers w_ok)) = "1700000000250")
  /\ ~ fresh_headers_per_call (H := RefPlatform) w_ok.
Proof.
  split.
  - exists (mkRequest "GET" apiURLDevices headers),
           (mkRequest "GET" (apiURLDeviceStatus "ABC123") headers).
    split; [exact sample_two_requests|].
    split; [reflexivity|].
    split; [vm_compute; reflexivity|].
    split; [discriminate|].
    split; vm_compute; reflexivity.
  - intros Hfresh.
    destruct (Hfresh _ _ _ _ (surjective_pairing _) sample_two_requests)
      as [Hdiff _].
    apply Hdiff. reflexivity.
Qed.

Lemma sample_createHeaders :
  fst (createHeaders "token" "secret" w_ok) = Done (headers, None).
Proof. vm_compute. reflexivity. Defined.

Lemma createHeaders_six_entries_witness :
  size headers = 6%nat
  /\ fst (createHeaders "token" "secret" w_404) = Done (headers, None).
Proof.
  destruct (createHeaders_six_entries "token" "secret" w_ok)
    as (hdrs & w' & Hrun & Hsize & _ & _ & _ & _ & _ & _ & _ & _ & Hdet).
  apply (f_equal fst) in Hrun. rewrite sample_createHeaders in Hrun.
  injection Hrun as <-.
  split; [exact Hsize|].
  apply Hdet; reflexivity.
Defined.

Lemma callSwitchBotAPI_on_response_witness :
  fst (callSwitchBotAPI (H := RefPlatform) apiURLDevices headers w_404)
  = Done (None, Some "error: API request failed with status code 404")
  /\ fst (callSwitchBotAPI (H := RefPlatform) apiURLDevices headers w_ok)
     = Done (Some (json_text devices_ABC123), None)
  /\ fst (callSwitchBotAPI (H := RefPlatform) apiURLDevices headers w_read_error)
     = Done (None, Some "error reading response body: unexpected EOF").
Proof.
  split; [|split].
  - refine (proj1 (callSwitchBotAPI_on_response (H := RefPlatform)
              apiURLDevices headers w_404 404 _ None _ _) _);
      [vm_compute; reflexivity | reflexivity | discriminate].
  - refine (proj1 (proj2 (callSwitchBotAPI_on_response (H := RefPlatform)
              apiURLDevices headers w_ok 200 _ None _ _)) _ _);
      [vm_compute; reflexivity | reflexivity | reflexivity | reflexivity].
  - refine (proj1 (proj2 (proj2 (callSwitchBotAPI_on_response (H := RefPlatform)
              apiURLDevices headers w_read_error 200 _ (Some "unexpected EOF") _ _)))
              _ _ _);
      [vm_compute; reflexivity | reflexivity | reflexivity | reflexivity].
Defined.

Lemma missing_credentials_abort_witness :
  (unset_or_empty w_no_secret "SWITCHBOT_API_KEY"
   /\ exists w',
        main (H := RefPlatform) w_no_secret = (Done tt, w')
        /\ stdout w' =
           ["Error: SWITCHBOT_TOKEN or SWITCHBOT_API_KEY environment variable is not set"
            +:+ Fmt.nl]
        /\ sent w' = [] /\ uuid_calls w' = 0%nat /\ clock_reads w' = 0%nat)
  /\ (unset_or_empty w_empty_token "SWITCHBOT_TOKEN"
      /\ exists w',
        main (H := RefPlatform) w_empty_token = (Done tt, w') /\ sent w' = []).
Proof.
  assert (Hs : unset_or_empty w_no_secret "SWITCHBOT_API_KEY")
    by (left; reflexivity).
  assert (Ht : unset_or_empty w_empty_token "SWITCHBOT_TOKEN")
    by (right; reflexivity).
  split; (split; [assumption|]).
  - exact (missing_credentials_abort (H := RefPlatform) w_no_secret (or_intror Hs)).
  - destruct (missing_credentials_abort (H := RefPlatform) w_empty_token (or_introl Ht))
      as (w' & Hm & _ & Hsent & _).
    exists w'. split; [exact Hm | exact Hsent].
Defined.

Lemma empty_device_list_witness :
  exists w',
    main (H := RefPlatform) w_empty = (Done tt, w')
    /\ stdout w' =
       [ "Response from /devices: " +:+ quoted devices_empty +:+ Fmt.nl;
         "No devices found." +:+ Fmt.nl ]
    /\ sent w' = [mkRequest "GET" apiURLDevices headers].
Proof.
  destruct (empty_device_list (H := RefPlatform) w_empty headers
           (json_text devices_empty) (decoded devices_empty)
           (object_at (decoded devices_empty) "body")
           (sample_devices_answer _ _)) as (w' & Hm & Hout & Hsent);
    [vm_compute; reflexivity ..|].
  exists w'. split; [exact Hm|]. split; [|exact Hsent].
  rewrite Hout. vm_compute. reflexivity.
Defined.





Lemma status_report_witness :
  (exists w',
     main (H := RefPlatform) w_ok = (Done tt, w')
     /\ stdout w' !! 6%nat = Some ("Humidity: 55.50" +:+ Fmt.nl))
  /\ (exists w',
     main (H := RefPlatform) w_partial = (Done tt, w')
     /\ stdout w' !! 6%nat = Some ("Humidity: 0.00" +:+ Fmt.nl)).
Proof.
  split.
  - destruct (status_report (H := RefPlatform) w_ok headers
                (json_text devices_ABC123) (decoded devices_ABC123) "ABC123"
                (json_text status_full) (decoded status_full)
                (object_at (decoded status_full) "body")
                (sample_devices_answer _ _))
      as (w' & Hm & _ & _ & H55 & _);
      [vm_compute; reflexivity | exact sample_first_device_id
       | apply sample_status_answer | vm_compute; reflexivity ..|].
    exists w'. split; [exact Hm|]. apply H55. vm_compute. reflexivity.
  - destruct (status_report (H := RefPlatform) w_partial headers
                (json_text devices_ABC123) (decoded devices_ABC123) "ABC123"
                (json_text status_partial) (decoded status_partial)
                (object_at (decoded status_partial) "body")
                (sample_devices_answer _ _))
      as (w' & Hm & _ & Hnone & _ & _);
      [vm_compute; reflexivity | exact sample_first_device_id
       | apply sample_status_answer | vm_compute; reflexivity ..|].
    exists w'. split; [exact Hm|]. apply Hnone. vm_compute. reflexivity.
Defined.

Lemma sample_no_device_list : ~ has_device_list (decoded devices_no_list).
Proof.
  intros (body & devices & Hb & Hl).
  assert (Hb' : decoded devices_no_list !! "body" = Some (JObj ∅))
    by (vm_compute; reflexivity).
  rewrite Hb' in Hb. injection Hb as <-. rewrite lookup_empty in Hl. discriminate.
Defined.

Lemma sample_no_body_object : ~ has_device_list (decoded devices_no_body).
Proof.
  intros (body & devices & Hb & _).
  assert (Hb' : decoded devices_no_body !! "body" = None)
    by (vm_compute; reflexivity).
  rewrite Hb' in Hb. discriminate.
Defined.

Lemma sample_no_body : ~ has_body (decoded status_no_body).
Proof.
  intros (body & Hb).
  assert (Hb' : decoded status_no_body !! "body" = Some (JStr ""))
    by (vm_compute; reflexivity).
  rewrite Hb' in Hb. discriminate.
Defined.

Lemma malformed_container_aborts_witness :
  (exists w',
     main (H := RefPlatform) w_no_list
     = (Panicked (InterfaceConversion None TSlice), w')
     /\ sent w' = [mkRequest "GET" apiURLDevices headers])
  /\ (exists p w',
     main (H := RefPlatform) w_no_body = (Panicked p, w')
     /\ crash_report (Panicked p)
        = Some "panic: interface conversion: interface {} is nil, not map[string]interface {}"
     /\ sent w' = [mkRequest "GET" apiURLDevices headers])
  /\ (exists w',
     main (H := RefPlatform) w_status_no_body = (Done tt, w')
     /\ stdout w' !! 3%nat
        = Some ("Error: response body is missing or not in expected format."
                +:+ Fmt.nl)
     /\ length (stdout w') = 4%nat).
Proof.
  split; [|split].
  - destruct (malformed_container_aborts (H := RefPlatform) w_no_list headers
                (json_text devices_no_list) (decoded devices_no_list)
                (sample_devices_answer _ _)) as [Ha _]; [vm_compute; reflexivity|].
    destruct (Ha sample_no_device_list) as (p & w' & Hm & _ & _ & _ & Hsent).
    exists w'. split; [|exact Hsent].
    rewrite Hm. f_equal.
    assert (Hp : fst (main (H := RefPlatform) w_no_list)
                 = Panicked (InterfaceConversion None TSlice))
      by (vm_compute; reflexivity).
    rewrite Hm in Hp. exact Hp.
  - destruct (malformed_container_aborts (H := RefPlatform) w_no_body headers
                (json_text devices_no_body) (decoded devices_no_body)
                (sample_devices_answer _ _)) as [Ha _]; [vm_compute; reflexivity|].
    destruct (Ha sample_no_body_object) as (p & w' & Hm & _ & _ & _ & Hsent).
    exists p, w'. split; [exact Hm|]. split; [|exact Hsent].
    assert (Hp : fst (main (H := RefPlatform) w_no_body)
                 = Panicked (InterfaceConversion None TMap))
      by (vm_compute; reflexivity).
    rewrite Hm in Hp. cbn in Hp. injection Hp as ->. reflexivity.
  - destruct (malformed_container_aborts (H := RefPlatform) w_status_no_body headers
                (json_text devices_ABC123) (decoded devices_ABC123)
                (sample_devices_answer _ _)) as [_ Hb]; [vm_compute; reflexivity|].
    destruct (Hb "ABC123" (json_text status_no_body) (decoded status_no_body)
                sample_first_device_id (sample_status_answer _ _))
      as (w' & Hm & Hout); [vm_compute; reflexivity | exact sample_no_body |].
    exists w'. split; [exact Hm|]. rewrite Hout. split; reflexivity.
Defined.

Lemma sample_no_id :
  first_device_unusable (decoded devices_no_id)
    (JObj (<["deviceName" := JStr "Meter"]> ∅)).
Proof.
  split.
  - exists (object_at (decoded devices_no_id) "body"), [].
    split; vm_compute; reflexivity.
  - intros (firstDevice & deviceID & Hf & Hi). injection Hf as <-.
    rewrite lookup_insert_ne in Hi by discriminate.
    rewrite lookup_empty in Hi. discriminate.
Defined.

Lemma sample_first_number :
  first_device_unusable (decoded devices_first_number)
    (JNum (S754_finite false 5910974510923776 (-47))).
Proof.
  split.
  - exists (object_at (decoded devices_first_number) "body"), [].
    split; vm_compute; reflexivity.
  - intros (firstDevice & deviceID & Hf & _). discriminate.
Defined.

Lemma unusable_first_device_panics_witness :
  (exists w',
     main (H := RefPlatform) w_no_id
     = (Panicked (InterfaceConversion None TString), w')
     /\ length (stdout w') = 1%nat
     /\ sent w' = [mkRequest "GET" apiURLDevices headers])
  /\ (exists w',
     main (H := RefPlatform) w_first_number
     = (Panicked (InterfaceConversion (Some TFloat64) TMap), w')
     /\ length (stdout w') = 1%nat
     /\ sent w' = [mkRequest "GET" apiURLDevices headers]).
Proof.
  split.
  - destruct (unusable_first_device_panics (H := RefPlatform) w_no_id headers
                (json_text devices_no_id) (decoded devices_no_id)
                (JObj (<["deviceName" := JStr "Meter"]> ∅))
                (sample_devices_answer _ _)) as (p & w' & Hm & -> & _ & Hout & Hsent);
      [vm_compute; reflexivity | exact sample_no_id |].
    exists w'. split; [exact Hm|]. split; [rewrite Hout; reflexivity | exact Hsent].
  - destruct (unusable_first_device_panics (H := RefPlatform) w_first_number headers
                (json_text devices_first_number) (decoded devices_first_number)
                (JNum (S754_finite false 5910974510923776 (-47)))
                (sample_devices_answer _ _)) as (p & w' & Hm & -> & _ & Hout & Hsent);
      [vm_compute; reflexivity | exact sample_first_number |].
    exists w'. split; [exact Hm|]. split; [rewrite Hout; reflexivity | exact Hsent].
Defined.


(** * Further properties *)

(** ** Strings *)

Lemma append_assoc (a b c : string) : (a +:+ b) +:+ c = a +:+ b +:+ c.
Proof.
  induction a as [|x a IH]; [reflexivity|].
  change (String x ((a +:+ b) +:+ c) = String x (a +:+ b +:+ c)).
  f_equal. exact IH.
Qed.

Lemma length_append (a b : string) :
  String.length (a +:+ b) = (String.length a + String.length b)%nat.
Proof.
  induction a as [|x a IH]; [reflexivity|].
  change (S (String.length (a +:+ b)) = S (String.length a + String.length b)).
  f_equal. exact IH.
Qed.

(** Two concatenations with right parts of one length agree part by part. *)
Lemma append_split (a b c d : string) :
  a +:+ b = c +:+ d -> String.length b = String.length d -> a = c /\ b = d.
Proof.
  revert c. induction a as [|x a IH]; intros [|y c] Heq Hlen.
  - auto.
  - apply (f_equal String.length) in Heq.
    change (String.length b = S (String.length (c +:+ d))) in Heq.
    rewrite length_append in Heq. lia.
  - apply (f_equal String.length) in Heq.
    change (S (String.length (a +:+ b)) = String.length d) in Heq.
    rewrite length_append in Heq. lia.
  - change (String x (a +:+ b) = String y (c +:+ d)) in Heq.
    injection Heq as -> Heq. destruct (IH c Heq Hlen) as [-> ->]. auto.
Qed.

Lemma d_inj (a b : Z) : Fmt.d a = Fmt.d b -> a = b.
Proof.
  unfold Fmt.d. intros Heq.
  assert (Hn : forall z, Z.to_int z <> Decimal.Pos Decimal.Nil
                         /\ Z.to_int z <> Decimal.Neg Decimal.Nil).
  { intros [|p|p]; cbn; split; try discriminate;
      intros [= Hp]; apply (DecimalPos.Unsigned.to_uint_nonnil p Hp). }
  assert (Hi : NilZero.int_of_string (NilZero.string_of_int (Z.to_int a))
               = NilZero.int_of_string (NilZero.string_of_int (Z.to_int b)))
    by (rewrite Heq; reflexivity).
  rewrite !NilZero.isi in Hi by apply Hn.
  injection Hi as Hi. apply (f_equal Z.of_int) in Hi.
  rewrite !DecimalZ.of_to in Hi. exact Hi.
Qed.

Lemma ends_nl_app (a b : string) : ends_nl b -> ends_nl (a +:+ b).
Proof. intros [s ->]. exists (a +:+ s). symmetry. apply append_assoc. Qed.

Lemma ends_nl_nl : ends_nl Fmt.nl.
Proof. exists "". reflexivity. Qed.

(** ** The digest and its encoding have fixed lengths *)

Lemma round_length st kw : length st = 8%nat -> length (Sha256.round st kw) = 8%nat.
Proof.
  intros Hl. do 9 (destruct st as [|? st]; try discriminate). reflexivity.
Qed.

Lemma rounds_length kws st :
  length st = 8%nat -> length (fold_left Sha256.round kws st) = 8%nat.
Proof.
  revert st. induction kws as [|kw kws IH]; intros st Hl; [exact Hl|].
  apply IH, round_length, Hl.
Qed.

Lemma add_state_length s t :
  length s = 8%nat -> length t = 8%nat -> length (Sha256.add_state s t) = 8%nat.
Proof.
  intros Hs Ht.
  do 9 (destruct s as [|? s]; try discriminate).
  do 9 (destruct t as [|? t]; try discriminate). reflexivity.
Qed.

Lemma blocks_length fuel st data :
  length st = 8%nat -> length (Sha256.blocks fuel st data) = 8%nat.
Proof.
  revert st data. induction fuel as [|fuel IH]; intros st data Hl; [exact Hl|].
  destruct data as [|b data]; [exact Hl|].
  cbn [Sha256.blocks]. apply IH. unfold Sha256.compress.
  apply add_state_length; [exact Hl | apply rounds_length, Hl].
Qed.

Lemma flat_map_be32_length st :
  length (flat_map Sha256.be32 st) = (4 * length st)%nat.
Proof.
  induction st as [|x st IH]; [reflexivity|].
  cbn [flat_map]. rewrite length_app, IH. cbn. lia.
Qed.

(** A SHA-256 digest has 32 bytes, whatever the message. *)
Lemma digest_length msg : length (Sha256.digest msg) = 32%nat.
Proof.
  unfold Sha256.digest. rewrite flat_map_be32_length, blocks_length; reflexivity.
Qed.

Lemma SumSHA256_length key msg : length (Hmac.SumSHA256 key msg) = 32%nat.
Proof.
  unfold Hmac.SumSHA256, Hmac.sum. rewrite length_map. apply digest_length.
Qed.

Lemma enc6_table : forallb enc6_ok (seq 0 64) = true.
Proof. vm_compute. reflexivity. Qed.

Lemma enc6_alphabet v : is_base64_char (Base64.enc6 v) = true.
Proof.
  assert (Hb : 0 <= Z.land v 63 < 64).
  { change 63 with (Z.ones 6). rewrite Z.land_ones by lia.
    apply Z.mod_pos_bound. lia. }
  pose proof enc6_table as Ht. rewrite forallb_forall in Ht.
  specialize (Ht (Z.to_nat (Z.land v 63))).
  assert (Hin : List.In (Z.to_nat (Z.land v 63)) (seq 0 64)) by (apply in_seq; lia).
  apply Ht in Hin. unfold enc6_ok in Hin. rewrite Z2Nat.id in Hin by lia.
  unfold Base64.enc6 in *.
  replace (Z.land (Z.land v 63) 63) with (Z.land v 63) in Hin; [exact Hin|].
  rewrite <- Z.land_assoc. reflexivity.
Qed.

(** Base64 of [n] bytes has [4 * ceil(n/3)] characters, all of the
    standard alphabet or the padding character. *)
Lemma encode_shape n l :
  (length l <= n)%nat ->
  String.length (Base64.encode l) = (4 * ((length l + 2) / 3))%nat
  /\ all_base64 (Base64.encode l) = true.
Proof.
  revert l. induction n as [n IH] using lt_wf_ind.
  intros l Hl.
  destruct l as [|a [|b [|c l]]].
  - split; reflexivity.
  - cbn [Base64.encode all_base64 String.length]. rewrite !enc6_alphabet.
    split; reflexivity.
  - cbn [Base64.encode all_base64 String.length]. rewrite !enc6_alphabet.
    split; reflexivity.
  - cbn [Base64.encode all_base64 String.length length].
    rewrite !enc6_alphabet.
    cbn [length] in Hl.
    destruct (IH (length l) ltac:(lia) l ltac:(lia)) as [Hlen Hall].
    rewrite Hlen, Hall. split; [|reflexivity].
    replace (S (S (S (length l))) + 2)%nat with ((length l + 2) + 1 * 3)%nat by lia.
    rewrite Nat.div_add by lia. lia.
Qed.


(** ** Stages of a run *)

Section Stages.
Context `{Platform}.
Import GoBytes.

Lemma answered_app srv k (a b : list Request) :
  answered srv k (a ++ b)%list
  = (answered srv k a + answered srv (k + length a) b)%nat.
Proof.
  revert k. induction a as [|r a IH]; intros k.
  - cbn. rewrite Nat.add_0_r. reflexivity.
  - cbn [answered app length]. rewrite IH.
    replace (S k + length a)%nat with (k + S (length a))%nat by lia. lia.
Qed.

(** Every way [callSwitchBotAPI] can end, with the world it leaves. *)
Lemma call_cases url h v :
  let req := mkRequest "GET" url h in
  exists res w',
    callSwitchBotAPI url h v = (Done res, w')
    /\ (((exists e, res = (None, Some e))
         /\ (w' = v
             \/ (w' = set_sent (sent v ++ [req])%list v
                 /\ answered (server v) (length (sent v)) [req] = 0%nat)
             \/ (w' = after_call req v
                 /\ answered (server v) (length (sent v)) [req] = 1%nat)))
        \/ (exists body,
              res = (Some body, None) /\ w' = after_call req v
              /\ answered (server v) (length (sent v)) [req] = 1%nat
              /\ server v (length (sent v)) req = Response 200 body None
              /\ http_NewRequest "GET" url = None)).
Proof.
  intros req. unfold callSwitchBotAPI, bind, client_Do.
  rewrite add_headers_id. fold req.
  destruct (http_NewRequest "GET" url) as [err|].
  { eexists _, _. split; [reflexivity|]. left. split; [eauto|]. left. reflexivity. }
  cbn [answered].
  destruct (server v (length (sent v)) req) as [err | code body [err|]] eqn:Hsrv.
  - eexists _, _. split; [reflexivity|]. left. split; [eauto|].
    right. left. split; reflexivity.
  - destruct (code =? 200); (eexists _, _; split; [reflexivity|]);
      left; (split; [eauto|]); right; right; split; reflexivity.
  - destruct (code =? 200) eqn:Ec; (eexists _, _; split; [reflexivity|]).
    + right. apply Z.eqb_eq in Ec. subst code. exists body.
      repeat split; reflexivity.
    + left. split; [eauto|]. right. right. split; reflexivity.
Qed.

Lemma reach_refl w : reach w w [] [] 0.
Proof.
  unfold reach. rewrite !app_nil_r. cbn. rewrite !Nat.add_0_r. repeat split.
Qed.

Lemma stage_start w : stage w w [] [] 0.
Proof.
  split; [apply reach_refl|]. cbn. repeat split; auto with lia. done.
Qed.

Lemma stage_headers w : stage w (after_headers w) [] [] 1.
Proof.
  split.
  - unfold reach. rewrite !app_nil_r. cbn. rewrite !Nat.add_0_r, !Nat.add_1_r.
    repeat split.
  - cbn. repeat split; auto with lia.
Qed.

Lemma stage_print w v reqs lines d s :
  stage w v reqs lines d -> ends_nl s ->
  stage w (set_stdout (stdout v ++ [s])%list v) reqs (lines ++ [s])%list d.
Proof.
  intros [(He & Hu & Hc & Hs & Hsent & Hout & Hcl & Hn & Hk) (Hl & Hd & Hr & Hg & Hnl)] Hs'.
  split.
  - unfold reach. cbn. rewrite Hout, <- app_assoc. repeat split; assumption.
  - repeat split; try assumption. apply Forall_app. split; [assumption|].
    constructor; [assumption | constructor].
Qed.

Lemma stage_prints w v reqs lines d (c : M unit) ls :
  stage w v reqs lines d -> prints c ls -> Forall ends_nl ls ->
  exists w', c v = (Done tt, w') /\ stage w w' reqs (lines ++ ls)%list d.
Proof.
  intros [(He & Hu & Hc & Hs & Hsent & Hout & Hcl & Hn & Hk) (Hl & Hd & Hr & Hg & Hnl)] Hp Hls.
  eexists. split; [apply Hp|]. split.
  - unfold reach. cbn. rewrite Hout, <- app_assoc. repeat split; assumption.
  - repeat split; try assumption. apply Forall_app. split; assumption.
Qed.

(** A call made after the nonce was drawn and at most one request sent. *)
Lemma stage_call w v reqs lines url h res w' :
  stage w v reqs lines 1 -> (length reqs <= 1)%nat ->
  is_api_get (mkRequest "GET" url h) ->
  callSwitchBotAPI url h v = (Done res, w') ->
  exists new,
    stage w w' (reqs ++ new)%list lines 1
    /\ ((new = [] /\ exists e, res = (None, Some e))
        \/ (new = [mkRequest "GET" url h]
            /\ ((exists e, res = (None, Some e))
                \/ exists body, res = (Some body, None)
                     /\ closed w' = S (closed v)
                     /\ server w (length (sent w) + length reqs)
                          (mkRequest "GET" url h) = Response 200 body None
                     /\ http_NewRequest "GET" url = None))).
Proof.
  intros [(He & Hu & Hc & Hs & Hsent & Hout & Hcl & Hn & Hk) (Hl & Hd & Hr & Hg & Hnl)]
         Hlen Hget Hcall.
  destruct (call_cases url h v) as (res0 & w0 & Hcall0 & Hcases).
  rewrite Hcall in Hcall0. injection Hcall0 as <- <-.
  assert (Hlenv : length (sent v) = (length (sent w) + length reqs)%nat)
    by (rewrite Hsent, length_app; reflexivity).
  assert (Hsent1 : (sent v ++ [mkRequest "GET" url h])%list
                    = (sent w ++ reqs ++ [mkRequest "GET" url h])%list)
    by (rewrite Hsent, <- app_assoc; reflexivity).
  assert (Hside : (length (reqs ++ [mkRequest "GET" url h]) <= 2)%nat
                  /\ (1 <= 1)%nat
                  /\ ((reqs ++ [mkRequest "GET" url h])%list <> [] -> 1%nat = 1%nat)
                  /\ Forall is_api_get (reqs ++ [mkRequest "GET" url h])
                  /\ Forall ends_nl lines).
  { rewrite length_app. cbn. repeat split; auto with lia.
    apply Forall_app. split; [assumption|]. constructor; [assumption|constructor]. }
  rewrite Hs, Hlenv in Hcases.
  destruct Hcases as [[He' [-> | [[-> Ha] | [-> Ha]]]] | (body & -> & -> & Ha & Hsrv & Hreq)].
  - exists []. rewrite app_nil_r. split; [|left; split; [reflexivity | exact He']].
    split; [repeat split; assumption|]. repeat split; assumption.
  - exists [mkRequest "GET" url h]. split; [|right; split; [reflexivity | left; exact He']].
    split; [|exact Hside].
    unfold reach. cbn. rewrite answered_app, Ha, Nat.add_0_r.
    repeat split; assumption.
  - exists [mkRequest "GET" url h]. split; [|right; split; [reflexivity | left; exact He']].
    split; [|exact Hside].
    unfold reach. cbn. rewrite answered_app, Ha, Hcl, Nat.add_1_r.
    repeat split; solve [assumption | lia].
  - exists [mkRequest "GET" url h]. split.
    + split; [|exact Hside].
      unfold reach. cbn. rewrite answered_app, Ha, Hcl, Nat.add_1_r.
      repeat split; solve [assumption | lia].
    + right. split; [reflexivity|]. right. exists body.
      repeat split; assumption.
Qed.

End Stages.

(** ** The shape of every run *)

Section Runs.
Context `{Platform}.
Import GoBytes.

Ltac go := cbv beta iota zeta.

Lemma prints_print s : prints (print s) [s].
Proof. intros v. reflexivity. Qed.

Lemma prints_bind s (k : M unit) ls :
  prints k ls -> prints (let* _ := print s in k) (s :: ls).
Proof.
  intros Hk v. unfold bind. rewrite print_run, Hk. cbn.
  rewrite <- app_assoc. reflexivity.
Qed.

(** The last stage of [main], lines 148-182, prints one line or five. *)
Lemma report_prints (statusResponse : gmap string json) :
  exists ls,
    ls <> [] /\ Forall ends_nl ls /\
    prints
      (let '(body, ok) := as_map (index statusResponse "body") in
       if negb ok then
         Println "Error: response body is missing or not in expected format."
       else
       let '(deviceIDStatus, ok) := as_string (index body "deviceId") in
       let deviceIDStatus := if negb ok then "N/A" else deviceIDStatus in
       let '(deviceType, ok) := as_string (index body "deviceType") in
       let deviceType := if negb ok then "N/A" else deviceType in
       let '(hubDeviceId, ok) := as_string (index body "hubDeviceId") in
       let hubDeviceId := if negb ok then "N/A" else hubDeviceId in
       let '(humidity, ok) := as_float64 (index body "humidity") in
       let humidity := if negb ok then S754_zero false else humidity in
       let '(temperature, ok) := as_float64 (index body "temperature") in
       let temperature := if negb ok then S754_zero false else temperature in
       let* _ := print ("Device ID: " +:+ deviceIDStatus +:+ Fmt.nl) in
       let* _ := print ("Device Type: " +:+ deviceType +:+ Fmt.nl) in
       let* _ := print ("Hub Device ID: " +:+ hubDeviceId +:+ Fmt.nl) in
       let* _ := print ("Humidity: " +:+ Fmt.f 2 humidity +:+ Fmt.nl) in
       print ("Temperature: " +:+ Fmt.f 2 temperature +:+ degreeC +:+ Fmt.nl))
      ls.
Proof.
  destruct (as_map _) as [body []]; cbn [negb].
  2:{ eexists. split; [|split; [|unfold Println; apply prints_print]].
      - discriminate.
      - repeat constructor. apply ends_nl_app, ends_nl_nl. }
  repeat (destruct (as_string _) as [? ?]).
  repeat (destruct (as_float64 _) as [? ?]).
  go. eexists. split; [|split; [|do 4 apply prints_bind; apply prints_print]].
  - discriminate.
  - repeat constructor; repeat (first [apply ends_nl_nl | apply ends_nl_app]).
Qed.

Lemma summary_prints w v reqs lines d (c : M unit) ls o w' :
  stage w v reqs lines d -> prints c ls -> ls <> [] -> Forall ends_nl ls ->
  c v = (o, w') -> run_summary w w'.
Proof.
  intros St Hp Hne Hnl Hc.
  destruct (stage_prints _ _ _ _ _ _ _ St Hp Hnl) as (w1 & Hc1 & St1).
  rewrite Hc1 in Hc. injection Hc as <- <-.
  exists reqs, (lines ++ ls)%list, d. split; [exact St1|].
  destruct lines; [exact Hne | discriminate].
Qed.

Lemma summary_panic w v reqs line d p (o : Outcome unit) w' :
  stage w v reqs [line] d -> panic p v = (o, w') -> run_summary w w'.
Proof.
  intros St [= <- <-]. eexists _, _, _. split; [exact St | discriminate].
Qed.

Lemma ends_nl_line (a e : string) : ends_nl (a +:+ e +:+ Fmt.nl).
Proof. do 2 apply ends_nl_app. apply ends_nl_nl. Qed.

Ltac leaf_print St :=
  unfold Println;
  apply (summary_prints _ _ _ _ _ _ _ _ _ St (prints_print _));
  [ discriminate
  | repeat constructor; repeat (first [apply ends_nl_nl | apply ends_nl_app]) ].

(** Every run of [main], whatever the environment, the server and the
    decoder give. *)
Lemma main_summary w o w' : main w = (o, w') -> run_summary w w'.
Proof.
  unfold main.
  unfold bind at 1. unfold Getenv at 1. go.
  unfold bind at 1. unfold Getenv at 1. go.
  set (token := default "" (environ w !! "SWITCHBOT_TOKEN")).
  set (secret := default "" (environ w !! "SWITCHBOT_API_KEY")).
  destruct (_ || _); [leaf_print (stage_start w)|].
  destruct (createHeaders_run token secret w) as (hdrs & Hrun & _).
  unfold bind at 1. rewrite Hrun. go. clear Hrun.
  (* the devices call *)
  unfold bind at 1.
  destruct (call_cases "https://api.switch-bot.com/v1.1/devices" hdrs
              (after_headers w)) as (res1 & w2 & Hc1 & _).
  rewrite Hc1.
  assert (Hget1 : is_api_get
            (mkRequest "GET" "https://api.switch-bot.com/v1.1/devices" hdrs))
    by (split; [reflexivity | exists ""; reflexivity]).
  destruct (stage_call _ _ _ _ _ _ _ _ (stage_headers w) (Nat.le_0_l 1) Hget1 Hc1)
    as (new1 & St2 & Hnew1).
  clear Hc1. cbn [app] in St2.
  destruct Hnew1 as [[-> [e ->]] | [-> [[e ->] | (b1 & -> & _)]]]; go;
    [leaf_print St2 | leaf_print St2 |].
  cbn [slice].
  unfold bind at 1. rewrite print_run. go.
  pose proof (stage_print _ _ _ _ _ _ St2 (ends_nl_line "Response from /devices: " (to_string b1))) as St3.
  cbn [app] in St3.
  revert St3. generalize (set_stdout
    (stdout w2 ++ ["Response from /devices: " +:+ to_string b1 +:+ Fmt.nl])%list w2).
  clear St2 w2. intros w3 St3.
  destruct (json_Unmarshal b1) as [e | devicesResponse]; [leaf_print St3|].
  (* the shape of the devices response *)
  unfold bind at 1.
  destruct (index devicesResponse "body") as [| | | | |body];
    cbn [assert_map ret panic dynamic_type]; go;
    try apply (summary_panic _ _ _ _ _ _ _ _ St3).
  unfold bind at 1.
  destruct (index body "deviceList") as [| | | |devices|];
    cbn [assert_slice ret panic dynamic_type]; go;
    try apply (summary_panic _ _ _ _ _ _ _ _ St3).
  destruct devices as [|devices_0 rest]; [leaf_print St3|].
  unfold bind at 1.
  destruct devices_0 as [| | | | |firstDevice];
    cbn [assert_map ret panic dynamic_type]; go;
    try apply (summary_panic _ _ _ _ _ _ _ _ St3).
  unfold bind at 1.
  destruct (index firstDevice "deviceId") as [| | |deviceID| |];
    cbn [assert_string ret panic dynamic_type]; go;
    try apply (summary_panic _ _ _ _ _ _ _ _ St3).
  unfold bind at 1. rewrite print_run. go.
  pose proof (stage_print _ _ _ _ _ _ St3 (ends_nl_line "Using deviceId: " deviceID)) as St4.
  cbn [app] in St4.
  revert St4. generalize (set_stdout
    (stdout w3 ++ ["Using deviceId: " +:+ deviceID +:+ Fmt.nl])%list w3).
  clear St3 w3. intros w4 St4.
  (* the status call *)
  unfold bind at 1.
  destruct (call_cases
              ("https://api.switch-bot.com/v1.1/devices/" +:+ deviceID +:+ "/status")
              hdrs w4) as (res2 & w5 & Hc2 & _).
  rewrite Hc2.
  assert (Hget2 : is_api_get
            (mkRequest "GET"
               ("https://api.switch-bot.com/v1.1/devices/" +:+ deviceID +:+ "/status")
               hdrs))
    by (split; [reflexivity | exists ("/" +:+ deviceID +:+ "/status"); reflexivity]).
  destruct (stage_call _ _ _ _ _ _ _ _ St4 (Nat.le_refl 1) Hget2 Hc2)
    as (new2 & St5 & Hnew2).
  clear Hc2.
  destruct Hnew2 as [[-> [e ->]] | [-> [[e ->] | (b2 & -> & _)]]]; go;
    [leaf_print St5 | leaf_print St5 |].
  cbn [slice].
  unfold bind at 1. rewrite print_run. go.
  pose proof (stage_print _ _ _ _ _ _ St5
                (ends_nl_line "Response from /devices/{deviceId}/status: "
                              (to_string b2))) as St6.
  destruct (json_Unmarshal b2) as [e | statusResponse]; [leaf_print St6|].
  destruct (report_prints statusResponse) as (ls & Hne & Hnl & Hp).
  exact (summary_prints _ _ _ _ _ _ _ _ _ St6 Hp Hne Hnl).
Qed.

(** *** [createHeaders], lines 18-44 *)

(** X1.  The [sign] header is always 44 characters long, each of them in
    the standard base64 alphabet or the padding character: the encoding
    of a 32-byte digest, whatever the token, the secret, the nonce and
    the clock are. *)
Theorem sign_header_shape token secret w :
  exists hdrs sign,
    fst (createHeaders token secret w) = Done (hdrs, None)
    /\ hdrs !! "sign" = Some sign
    /\ String.length sign = 44%nat
    /\ all_base64 sign = true.
Proof.
  destruct (createHeaders_run token secret w) as (hdrs & Hrun & ->).
  eexists _, _. split; [rewrite Hrun; reflexivity|].
  split; [by simplify_map_eq|].
  unfold signature, Base64.EncodeToString.
  destruct (encode_shape 32
              (map byte_to_Z
                 (Hmac.SumSHA256 (of_string secret)
                    (of_string (token +:+ Fmt.d (millis w)
                                +:+ uuid_src w (uuid_calls w))))))
    as [Hlen Hall].
  { rewrite length_map, SumSHA256_length. lia. }
  rewrite length_map, SumSHA256_length in Hlen.
  split; [exact Hlen | exact Hall].
Qed.

(** X2.  For a clock reading [z] in the range of [int64], the [t] header
    is the decimal of [z / 10^6] truncated toward zero; for a reading at
    or after the epoch it is the whole number of milliseconds elapsed,
    written with digits only. *)
Theorem timestamp_header token secret w :
  - 2 ^ 63 <= clock_src w (clock_reads w) < 2 ^ 63 ->
  exists hdrs t,
    fst (createHeaders token secret w) = Done (hdrs, None)
    /\ hdrs !! "t" = Some (Fmt.d t)
    /\ t = Z.quot (clock_src w (clock_reads w)) 1000000
    /\ (0 <= clock_src w (clock_reads w) ->
        1000000 * t <= clock_src w (clock_reads w) < 1000000 * (t + 1)
        /\ all_digits (Fmt.d t) = true).
Proof.
  intros Hz.
  destruct (createHeaders_run token secret w) as (hdrs & Hrun & ->).
  eexists _, _. split; [rewrite Hrun; reflexivity|].
  split; [by simplify_map_eq|].
  split; [apply millis_in_range; exact Hz|].
  intros Hpos. unfold millis. rewrite millis_in_range by exact Hz.
  set (z := clock_src w (clock_reads w)) in *.
  rewrite Z.quot_div_nonneg by lia.
  pose proof (Z.div_pos z 1000000 Hpos ltac:(lia)) as Hq.
  pose proof (Z.mul_div_le z 1000000 ltac:(lia)).
  pose proof (Z.mul_succ_div_gt z 1000000 ltac:(lia)).
  split; [lia|]. apply d_digits. exact Hq.
Qed.

(** X3.  Two builds in a row take the next nonce and the next clock
    reading, and nothing else changes: no request is sent and nothing
    printed.  The second header set differs from the first whenever the
    two nonces differ. *)
Theorem createHeaders_twice token secret w :
  exists h1 h2 w2,
    createHeaders token secret w = (Done (h1, None), after_headers w)
    /\ createHeaders token secret (after_headers w) = (Done (h2, None), w2)
    /\ reach w w2 [] [] 2
    /\ h1 !! "nonce" = Some (uuid_src w (uuid_calls w))
    /\ h2 !! "nonce" = Some (uuid_src w (S (uuid_calls w)))
    /\ h2 !! "t"
       = Some (Fmt.d (Int64.div (Int64.wrap (clock_src w (S (clock_reads w))))
                                Millisecond))
    /\ (uuid_src w (S (uuid_calls w)) <> uuid_src w (uuid_calls w) -> h2 <> h1).
Proof.
  destruct (createHeaders_run token secret w) as (h1 & Hrun1 & ->).
  destruct (createHeaders_run token secret (after_headers w)) as (h2 & Hrun2 & ->).
  eexists _, _, _. split; [exact Hrun1|]. split; [exact Hrun2|].
  split.
  { unfold reach. cbn. rewrite !app_nil_r.
    repeat split; lia. }
  split; [by simplify_map_eq|]. split; [by simplify_map_eq|].
  split; [by simplify_map_eq|].
  intros Hne Heq. apply Hne.
  apply (f_equal (fun m : gmap string string => m !! "nonce")) in Heq.
  rewrite !lookup_insert_eq in Heq.
  cbn [uuid_src uuid_calls after_headers set_clock_reads set_uuid_calls] in Heq.
  congruence.
Qed.

(** X4.  The string that is signed, token then decimal timestamp then
    nonce with no separator, determines the timestamp and the nonce when
    the nonces have the same length, as the 36 characters of a UUID
    have. *)
Theorem signing_input_unambiguous token t1 t2 nonce1 nonce2 :
  String.length nonce1 = String.length nonce2 ->
  token +:+ Fmt.d t1 +:+ nonce1 = token +:+ Fmt.d t2 +:+ nonce2 ->
  t1 = t2 /\ nonce1 = nonce2.
Proof.
  intros Hlen Heq.
  apply (append_split token (Fmt.d t1 +:+ nonce1) token (Fmt.d t2 +:+ nonce2))
    in Heq as [_ Heq].
  - apply append_split in Heq as [Hd Hn]; [|exact Hlen].
    split; [apply d_inj; exact Hd | exact Hn].
  - apply (f_equal String.length) in Heq.
    rewrite !length_append in Heq. rewrite !length_append. lia.
Qed.

(** *** [callSwitchBotAPI], lines 47-79 *)

(** X5.  A call does not reach [client.Do] when the request cannot be
    built, and otherwise calls it exactly once, with a GET request
    created from the given URL string, to which each entry of the given
    header map, and nothing else, was given through [req.Header.Add].
    It closes one response body if the call gave a response and none if
    it failed, prints nothing, and draws no nonce and no clock
    reading. *)
Theorem callSwitchBotAPI_one_get url headers w :
  exists r w',
    callSwitchBotAPI url headers w = (Done r, w')
    /\ match http_NewRequest "GET" url with
       | Some err =>
           w' = w /\ r = (None, Some ("error creating request: " +:+ err))
       | None => reach w w' [mkRequest "GET" url headers] [] 0
       end.
Proof.
  unfold callSwitchBotAPI, bind, client_Do. rewrite add_headers_id.
  destruct (http_NewRequest "GET" url) as [err|];
    [eexists _, _; repeat split|].
  assert (Hreach : forall w' : World,
            environ w' = environ w -> uuid_src w' = uuid_src w ->
            clock_src w' = clock_src w -> server w' = server w ->
            sent w' = (sent w ++ [mkRequest "GET" url headers])%list ->
            stdout w' = stdout w ->
            closed w' = (closed w + answered (server w) (length (sent w))
                                      [mkRequest "GET" url headers])%nat ->
            uuid_calls w' = uuid_calls w -> clock_reads w' = clock_reads w ->
            reach w w' [mkRequest "GET" url headers] [] 0).
  { intros w' ? ? ? ? ? Hout ? ? ?. unfold reach.
    rewrite Hout, app_nil_r, !Nat.add_0_r. repeat split; assumption. }
  cbn [answered] in Hreach.
  destruct (server w (length (sent w)) (mkRequest "GET" url headers))
    as [err | code body [err|]];
    [| destruct (code =? 200) | destruct (code =? 200)];
    (eexists _, _; split; [reflexivity|]); apply Hreach; cbn;
    try reflexivity; lia.
Qed.

(** X6.  A call returns either an error and no body, or a body and no
    error; and a body only when the request could be built and the server
    answered it with status 200 and a body read to its end, which is the
    body returned. *)
Theorem callSwitchBotAPI_body_only_from_200 url headers w :
  (exists e, fst (callSwitchBotAPI url headers w) = Done (None, Some e))
  \/ (exists body,
        fst (callSwitchBotAPI url headers w) = Done (Some body, None)
        /\ http_NewRequest "GET" url = None
        /\ server w (length (sent w)) (mkRequest "GET" url headers)
           = Response 200 body None).
Proof.
  destruct (call_cases url headers w) as (res & w' & Hc & Hcases).
  rewrite Hc. cbn [fst].
  destruct Hcases as [[[e ->] _] | (body & -> & _ & _ & Hsrv & Hreq)].
  - left. eauto.
  - right. eauto.
Qed.

(** *** [main], lines 81-183 *)

(** Symbolic execution of [main] up to the decoding of the devices
    response, from a [devices_answer]. *)
Ltac run_devices w Hdev :=
  let token := fresh "token" in
  let secret := fresh "secret" in
  let Ht := fresh "Ht" in let Htne := fresh "Htne" in
  let Hs := fresh "Hs" in let Hsne := fresh "Hsne" in
  let Hh := fresh "Hh" in let Hreq := fresh "Hreq" in
  let Hsrv := fresh "Hsrv" in let Hrun := fresh "Hrun" in
  let hdrs := fresh "hdrs" in
  destruct Hdev as (token & secret & Ht & Htne & Hs & Hsne & Hh & Hreq & Hsrv);
  destruct (createHeaders_run token secret w) as (hdrs & Hrun & _);
  rewrite Hrun in Hh; simpl in Hh; injection Hh as ->;
  unfold main; unfold bind at 1; rewrite (Getenv_set _ _ _ Ht); go;
  unfold bind at 1; rewrite (Getenv_set _ _ _ Hs); go;
  apply String.eqb_neq in Htne, Hsne; rewrite Htne, Hsne; cbn [orb]; go;
  unfold bind at 1; rewrite Hrun; go;
  unfold bind at 1;
  (let Hc := fresh "Hc" in
   pose proof (callSwitchBotAPI_ok _ _ (after_headers w) _ Hreq Hsrv) as Hc;
   unfold apiURLDevices in Hc; rewrite Hc; clear Hc); go;
  unfold bind at 1; rewrite print_run; go; cbn [slice].

(** ... then up to the status call, from a [first_device_id]. *)
Ltac run_select Hjson Hfirst :=
  let body := fresh "body" in
  let firstDevice := fresh "firstDevice" in
  let rest := fresh "rest" in
  let Hb := fresh "Hb" in let Hl := fresh "Hl" in let Hi := fresh "Hi" in
  destruct Hfirst as (body & firstDevice & rest & Hb & Hl & Hi);
  rewrite Hjson; unfold index;
  unfold bind at 1; rewrite Hb; cbn [default from_option assert_map ret id];
  unfold bind at 1; rewrite Hl; cbn [default from_option assert_slice ret id];
  unfold bind at 1; cbn [assert_map ret];
  unfold bind at 1; rewrite Hi; cbn [default from_option assert_string ret id];
  unfold bind at 1; rewrite print_run; go.

(** ... then up to the decoding of the status response, from a
    [status_answer]. *)
Ltac run_status Hst :=
  unfold bind at 1;
  erewrite (status_call_ok _ _ _ _ _ _ Hst); [ | reflexivity | reflexivity ]; go;
  unfold bind at 1; rewrite print_run; go; cbn [slice].

(** X7.  Whatever makes the devices call fail, the run prints
    [Error calling /devices API: ] with the error of the call, returns
    normally and sends no further request. *)
Theorem devices_call_error_reported w token secret apiHeader b e :
  got_credentials w token secret ->
  fst (createHeaders token secret w) = Done (apiHeader, None) ->
  fst (callSwitchBotAPI apiURLDevices apiHeader (after_headers w))
  = Done (b, Some e) ->
  exists w',
    main w = (Done tt, w')
    /\ stdout w' = (stdout w ++ ["Error calling /devices API: " +:+ e +:+ Fmt.nl])%list
    /\ (sent w' = sent w
        \/ sent w' = (sent w ++ [mkRequest "GET" apiURLDevices apiHeader])%list).
Proof.
  intros (Ht & Htne & Hs & Hsne) Hh Hcall.
  destruct (createHeaders_run token secret w) as (hdrs & Hrun & _).
  rewrite Hrun in Hh. simpl in Hh. injection Hh as ->.
  unfold main. unfold bind at 1. rewrite (Getenv_set _ _ _ Ht). go.
  unfold bind at 1. rewrite (Getenv_set _ _ _ Hs). go.
  apply String.eqb_neq in Htne, Hsne. rewrite Htne, Hsne. cbn [orb]. go.
  unfold bind at 1. rewrite Hrun. go.
  unfold bind at 1.
  destruct (callSwitchBotAPI_frame apiURLDevices apiHeader (after_headers w))
    as (r & w2 & Hc & Hsent & _).
  rewrite Hc in Hcall. cbn [fst] in Hcall. injection Hcall as ->.
  unfold apiURLDevices in Hc. rewrite Hc. go. rewrite print_run.
  eexists. split; [reflexivity|]. cbn [stdout sent set_stdout].
  split; [|exact Hsent].
  assert (Hout : stdout w2 = stdout w); [|rewrite Hout; reflexivity].
  destruct (call_cases "https://api.switch-bot.com/v1.1/devices" apiHeader
              (after_headers w)) as (res & w2' & Hc' & Hcases).
  rewrite Hc in Hc'. injection Hc' as <- <-.
  destruct Hcases as [[_ [-> | [[-> _] | [-> _]]]] | (? & _ & -> & _)];
    reflexivity.
Qed.

(** X8.  When the body of the devices response is not JSON the decoder
    accepts, the run prints the body, then
    [Error unmarshalling /devices response: ] with the decoder's error,
    and returns normally after that one request. *)
Theorem devices_decode_error_reported w apiHeader bodyDevices e :
  devices_answer w apiHeader bodyDevices ->
  json_Unmarshal bodyDevices = inl e ->
  exists w',
    main w = (Done tt, w')
    /\ stdout w'
       = (stdout w
          ++ [ "Response from /devices: " +:+ to_string bodyDevices +:+ Fmt.nl;
               "Error unmarshalling /devices response: " +:+ e +:+ Fmt.nl ])%list
    /\ sent w' = (sent w ++ [mkRequest "GET" apiURLDevices apiHeader])%list.
Proof.
  intros Hdev Hjson. run_devices w Hdev.
  rewrite Hjson. rewrite print_run.
  eexists. split; [reflexivity|].
  cbn. rewrite <- app_assoc. split; reflexivity.
Qed.

(** X9.  Whatever makes the status call fail, the run prints
    [Error calling /devices/{deviceId}/status API: ] with the error of
    the call after the two lines of the devices stage, prints no report,
    and returns normally. *)
Theorem status_call_error_reported w apiHeader bodyDevices devicesResponse
        deviceID b e :
  devices_answer w apiHeader bodyDevices ->
  json_Unmarshal bodyDevices = inr devicesResponse ->
  first_device_id devicesResponse deviceID ->
  fst (callSwitchBotAPI (apiURLDeviceStatus deviceID) apiHeader
         (before_status_call w apiHeader bodyDevices deviceID))
  = Done (b, Some e) ->
  exists w',
    main w = (Done tt, w')
    /\ stdout w'
       = (stdout w
          ++ [ "Response from /devices: " +:+ to_string bodyDevices +:+ Fmt.nl;
               "Using deviceId: " +:+ deviceID +:+ Fmt.nl;
               "Error calling /devices/{deviceId}/status API: " +:+ e +:+ Fmt.nl ])%list.
Proof.
  intros Hdev Hjson Hfirst Hcall. run_devices w Hdev. run_select Hjson Hfirst.
  unfold bind at 1.
  unfold before_status_call, apiURLDeviceStatus, apiURLDevices in Hcall.
  cbv zeta in Hcall.
  match goal with
  | |- context [callSwitchBotAPI ?u ?h ?v] =>
      destruct (call_cases u h v) as (res & w5 & Hc & Hcases)
  end.
  rewrite Hc in Hcall. cbn [fst] in Hcall. injection Hcall as ->.
  rewrite Hc. go. rewrite print_run.
  eexists. split; [reflexivity|]. cbn [stdout set_stdout].
  assert (Hout : stdout w5
                 = ((stdout w ++ ["Response from /devices: " +:+ to_string bodyDevices
                                  +:+ Fmt.nl])
                    ++ ["Using deviceId: " +:+ deviceID +:+ Fmt.nl])%list).
  { destruct Hcases as [[_ [-> | [[-> _] | [-> _]]]] | (? & _ & -> & _)];
      reflexivity. }
  rewrite Hout, <- !app_assoc. reflexivity.
Qed.

(** X10.  When the body of the status response is not JSON the decoder
    accepts, the run prints the body, then
    [Error unmarshalling /devices/{deviceId}/status response: ] with the
    decoder's error, prints no report and returns normally after the two
    requests. *)
Theorem status_decode_error_reported w apiHeader bodyDevices devicesResponse
        deviceID bodyDeviceStatus e :
  devices_answer w apiHeader bodyDevices ->
  json_Unmarshal bodyDevices = inr devicesResponse ->
  first_device_id devicesResponse deviceID ->
  status_answer w apiHeader deviceID bodyDeviceStatus ->
  json_Unmarshal bodyDeviceStatus = inl e ->
  exists w',
    main w = (Done tt, w')
    /\ stdout w'
       = (stdout w
          ++ [ "Response from /devices: " +:+ to_string bodyDevices +:+ Fmt.nl;
               "Using deviceId: " +:+ deviceID +:+ Fmt.nl;
               "Response from /devices/{deviceId}/status: "
                 +:+ to_string bodyDeviceStatus +:+ Fmt.nl;
               "Error unmarshalling /devices/{deviceId}/status response: "
                 +:+ e +:+ Fmt.nl ])%list
    /\ sent w'
       = (sent w ++ [ mkRequest "GET" apiURLDevices apiHeader;
                      mkRequest "GET" (apiURLDeviceStatus deviceID) apiHeader ])%list.
Proof.
  intros Hdev Hjson Hfirst Hst Hjson2.
  run_devices w Hdev. run_select Hjson Hfirst. run_status Hst.
  rewrite Hjson2. rewrite print_run.
  eexists. split; [reflexivity|].
  cbn. rewrite <- !app_assoc. split; reflexivity.
Qed.

(** Once the devices response gave a first device with a string
    identifier, the run cannot panic: whatever the status call and the
    decoder return, [main] returns normally, having printed at least one
    more line after the two of the devices stage. *)
Lemma selected_device_returns w apiHeader bodyDevices devicesResponse
        deviceID :
  devices_answer w apiHeader bodyDevices ->
  json_Unmarshal bodyDevices = inr devicesResponse ->
  first_device_id devicesResponse deviceID ->
  exists w' more,
    main w = (Done tt, w')
    /\ more <> []
    /\ stdout w'
       = (stdout w
          ++ [ "Response from /devices: " +:+ to_string bodyDevices +:+ Fmt.nl;
               "Using deviceId: " +:+ deviceID +:+ Fmt.nl ]
          ++ more)%list.
Proof.
  intros Hdev Hjson Hfirst. run_devices w Hdev. run_select Hjson Hfirst.
  assert (Hleaf : forall (c : M unit) ls v,
            prints c ls -> ls <> [] ->
            stdout v = ((stdout w ++ ["Response from /devices: "
                                      +:+ to_string bodyDevices +:+ Fmt.nl])
                        ++ ["Using deviceId: " +:+ deviceID +:+ Fmt.nl])%list ->
            exists w' more,
              c v = (Done tt, w') /\ more <> []
              /\ stdout w'
                 = (stdout w
                    ++ [ "Response from /devices: " +:+ to_string bodyDevices
                         +:+ Fmt.nl;
                         "Using deviceId: " +:+ deviceID +:+ Fmt.nl ]
                    ++ more)%list).
  { intros c ls v Hp Hne Hout. eexists _, ls. split; [apply Hp|].
    split; [exact Hne|]. cbn [stdout set_stdout].
    rewrite Hout, <- !app_assoc. reflexivity. }
  unfold bind at 1.
  match goal with
  | |- context [callSwitchBotAPI ?u ?h ?v] =>
      destruct (call_cases u h v) as (res & w5 & Hc & Hcases)
  end.
  rewrite Hc. clear Hc.
  assert (Hout : stdout w5
                 = ((stdout w ++ ["Response from /devices: " +:+ to_string bodyDevices
                                  +:+ Fmt.nl])
                    ++ ["Using deviceId: " +:+ deviceID +:+ Fmt.nl])%list
                 /\ ((exists e, res = (None, Some e))
                     \/ exists body, res = (Some body, None))).
  { destruct Hcases as [[He [-> | [[-> _] | [-> _]]]] | (b2 & -> & -> & _)];
      (split; [reflexivity | eauto]). }
  clear Hcases. destruct Hout as [Hout [[e ->] | [b2 ->]]]; go.
  - apply (Hleaf _ _ _ (prints_print _)); [discriminate | exact Hout].
  - cbn [slice].
    destruct (json_Unmarshal b2) as [e | statusResponse].
    + apply (Hleaf _ _ _ (prints_bind _ _ _ (prints_print _)));
        [discriminate | exact Hout].
    + destruct (report_prints statusResponse) as (ls & Hne & _ & Hp).
      apply (Hleaf _ _ _ (prints_bind _ _ _ Hp)); [discriminate | exact Hout].
Qed.

Lemma default_nonempty (o : option string) :
  (default "" o =? "")%string = false -> o = Some (default "" o) /\ default "" o <> "".
Proof.
  destruct o as [s|]; cbn; [|discriminate].
  intros Hs. split; [reflexivity|]. apply String.eqb_neq. exact Hs.
Qed.

Lemma prints_done (c : M unit) ls v o w' :
  prints c ls -> c v = (o, w') -> o = Done tt.
Proof. intros Hp. rewrite Hp. congruence. Qed.

Ltac no_panic_leaf :=
  unfold Println;
  let Hp := fresh "Hp" in
  intros Hp; discriminate (prints_done _ _ _ _ _ (prints_print _) Hp).

(** X11.  [main] panics only at the unguarded type assertions on the
    devices response: a panic means the credentials were set, the server
    answered the devices request with status 200 and a body the decoder
    accepted, and that response has no object [body] with a list
    [deviceList], or a first device that is no object with a string
    [deviceId].  By then the run has sent that one request, closed its
    response and printed the body, and nothing else. *)
Theorem panic_only_on_malformed_devices w p w' :
  main w = (Panicked p, w') ->
  exists apiHeader bodyDevices devicesResponse,
    devices_answer w apiHeader bodyDevices
    /\ json_Unmarshal bodyDevices = inr devicesResponse
    /\ (~ has_device_list devicesResponse
        \/ exists first, first_device_unusable devicesResponse first)
    /\ sent w' = (sent w ++ [mkRequest "GET" apiURLDevices apiHeader])%list
    /\ closed w' = S (closed w)
    /\ stdout w'
       = (stdout w ++ ["Response from /devices: " +:+ to_string bodyDevices
                       +:+ Fmt.nl])%list.
Proof.
  intros Hm0. pose proof Hm0 as Hm. revert Hm. unfold main.
  unfold bind at 1. unfold Getenv at 1. go.
  unfold bind at 1. unfold Getenv at 1. go.
  destruct (_ || _) eqn:Hcred; [no_panic_leaf|].
  apply orb_false_elim in Hcred as [Ht Hs].
  apply default_nonempty in Ht as [Ht Htne], Hs as [Hs Hsne].
  revert Ht Htne Hs Hsne.
  generalize (default "" (environ w !! "SWITCHBOT_TOKEN")).
  generalize (default "" (environ w !! "SWITCHBOT_API_KEY")).
  intros secret token Ht Htne Hs Hsne.
  destruct (createHeaders_run token secret w) as (hdrs & Hrun & _).
  unfold bind at 1. rewrite Hrun. go.
  unfold bind at 1.
  destruct (call_cases "https://api.switch-bot.com/v1.1/devices" hdrs
              (after_headers w)) as (res1 & w2 & Hc1 & Hcases).
  rewrite Hc1.
  destruct Hcases as [[[e ->] _] | (b1 & -> & -> & _ & Hsrv & Hreq)]; go;
    [no_panic_leaf|].
  cbn [slice]. clear Hc1.
  assert (Hdev : devices_answer w hdrs b1).
  { exists token, secret. rewrite Hrun. repeat split; assumption. }
  clear Hrun Hsrv Hreq Ht Htne Hs Hsne.
  unfold bind at 1. rewrite print_run. go.
  destruct (json_Unmarshal b1) as [e | devicesResponse] eqn:Hjson;
    [no_panic_leaf|].
  intros Hp. exists hdrs, b1, devicesResponse.
  split; [exact Hdev|]. split; [exact Hjson|].
  revert Hp. unfold index.
  unfold bind at 1.
  destruct (devicesResponse !! "body") as [[| | | | |body]|] eqn:Hb;
    cbn [default from_option id assert_map ret panic dynamic_type]; go;
    try (intros [= <- <-]; split;
         [left; intros (b' & l' & Hb' & _); congruence | repeat split]).
  unfold bind at 1.
  destruct (body !! "deviceList") as [[| | | |devices|]|] eqn:Hl;
    cbn [default from_option id assert_slice ret panic dynamic_type]; go;
    try (intros [= <- <-]; split;
         [left; intros (b' & l' & Hb' & Hl'); congruence | repeat split]).
  destruct devices as [|devices_0 rest]; [no_panic_leaf|].
  unfold bind at 1.
  destruct devices_0 as [| | | | |firstDevice];
    cbn [assert_map ret panic dynamic_type]; go;
    try (intros [= <- <-]; split;
         [right; eexists; split;
          [exists body, rest; split; [exact Hb | exact Hl]
          |intros (fd & id & Hfd & _); discriminate]
         | repeat split]).
  unfold bind at 1.
  destruct (firstDevice !! "deviceId") as [[| | |deviceID| |]|] eqn:Hi;
    cbn [default from_option id assert_string ret panic dynamic_type]; go;
    try (intros [= <- <-]; split;
         [right; eexists; split;
          [exists body, rest; split; [exact Hb | exact Hl]
          |intros (fd & id & Hfd & Hid); injection Hfd as <-; congruence]
         | repeat split]).
  (* a first device with an identifier: no panic from here on *)
  intros _. exfalso.
  assert (Hfirst : first_device_id devicesResponse deviceID)
    by (exists body, firstDevice, rest; auto).
  destruct (selected_device_returns w hdrs b1 devicesResponse deviceID
              Hdev Hjson Hfirst) as (w1 & more & Hm & _).
  rewrite Hm in Hm0. discriminate.
Qed.

(** X12.  Every run calls [client.Do] at most twice, each time with a
    GET request created from the devices URL or from a string that
    extends it; it draws at most one nonce and one clock reading, and
    exactly one of each before its first call. *)
Theorem every_run_requests w :
  exists reqs drawn,
    sent (snd (main w)) = (sent w ++ reqs)%list
    /\ (length reqs <= 2)%nat
    /\ Forall is_api_get reqs
    /\ uuid_calls (snd (main w)) = (uuid_calls w + drawn)%nat
    /\ clock_reads (snd (main w)) = (clock_reads w + drawn)%nat
    /\ (drawn <= 1)%nat
    /\ (reqs <> [] -> drawn = 1%nat).
Proof.
  destruct (main_summary w _ _ (surjective_pairing (main w)))
    as (reqs & lines & drawn & [Hreach (Hlen & Hd & Hone & Hget & _)] & _).
  destruct Hreach as (_ & _ & _ & _ & Hsent & _ & _ & Hu & Hc).
  exists reqs, drawn. repeat split; assumption.
Qed.

(** X13.  Every run closes the body of every response it received: at
    the end the number of closed bodies has grown by the number of
    requests of the run that the server answered, and a request that
    failed in transport left nothing to close. *)
Theorem every_run_closes_responses w :
  exists reqs,
    sent (snd (main w)) = (sent w ++ reqs)%list
    /\ closed (snd (main w))
       = (closed w + answered (server w) (length (sent w)) reqs)%nat.
Proof.
  destruct (main_summary w _ _ (surjective_pairing (main w)))
    as (reqs & lines & drawn & [Hreach _] & _).
  destruct Hreach as (_ & _ & _ & _ & Hsent & _ & Hcl & _).
  exists reqs. split; assumption.
Qed.


End Runs.

(** ** The further properties on the sample worlds *)

Lemma timestamp_header_witness :
  exists hdrs,
    fst (createHeaders "token" "secret" w_ok) = Done (hdrs, None)
    /\ hdrs !! "t" = Some "1700000000000".
Proof.
  destruct (timestamp_header "token" "secret" w_ok)
    as (hdrs & t & Hrun & Ht & -> & _);
    [vm_compute; split; [discriminate | reflexivity]|].
  exists hdrs. split; [exact Hrun|]. rewrite Ht. vm_compute. reflexivity.
Defined.

Lemma signing_input_unambiguous_witness :
  1700000000000 = 1700000000000 /\ uuids 0 = uuids 0.
Proof.
  apply (signing_input_unambiguous "token" 1700000000000 1700000000000
           (uuids 0) (uuids 0)); reflexivity.
Defined.

Lemma devices_call_error_reported_witness :
  (exists w',
     main (H := RefPlatform) w_unreachable = (Done tt, w')
     /\ stdout w'
        = [ "Error calling /devices API: error executing HTTP request: dial tcp: lookup api.switch-bot.com: no such host"
            +:+ Fmt.nl ])
  /\ (exists w',
     main (H := RefPlatform) w_404 = (Done tt, w')
     /\ stdout w'
        = [ "Error calling /devices API: error: API request failed with status code 404"
            +:+ Fmt.nl ]).
Proof.
  split.
  - destruct (devices_call_error_reported (H := RefPlatform) w_unreachable
                "token" "secret" headers None
                "error executing HTTP request: dial tcp: lookup api.switch-bot.com: no such host")
      as (w' & Hm & Hout & _);
      [ repeat split; (reflexivity || discriminate)
      | vm_compute; reflexivity | vm_compute; reflexivity | ].
    exists w'. split; [exact Hm | exact Hout].
  - destruct (devices_call_error_reported (H := RefPlatform) w_404
                "token" "secret" headers None
                "error: API request failed with status code 404")
      as (w' & Hm & Hout & _);
      [ repeat split; (reflexivity || discriminate)
      | vm_compute; reflexivity | vm_compute; reflexivity | ].
    exists w'. split; [exact Hm | exact Hout].
Defined.

Lemma devices_decode_error_reported_witness :
  exists w',
    main (H := RefPlatform) w_devices_not_json = (Done tt, w')
    /\ stdout w'
       = [ "Response from /devices: <html>502 Bad Gateway</html>" +:+ Fmt.nl;
           "Error unmarshalling /devices response: invalid character looking for beginning of value"
           +:+ Fmt.nl ]
    /\ sent w' = [mkRequest "GET" apiURLDevices headers].
Proof.
  destruct (devices_decode_error_reported (H := RefPlatform) w_devices_not_json
              headers (json_text "<html>502 Bad Gateway</html>")
              "invalid character looking for beginning of value"
              (sample_devices_answer _ _))
    as (w' & Hm & Hout & Hsent); [vm_compute; reflexivity|].
  exists w'. split; [exact Hm|]. split; [|exact Hsent].
  rewrite Hout. vm_compute. reflexivity.
Defined.

Lemma status_call_error_reported_witness :
  exists w',
    main (H := RefPlatform) w_status_503 = (Done tt, w')
    /\ stdout w' !! 2%nat
       = Some ("Error calling /devices/{deviceId}/status API: error: API request failed with status code 503"
               +:+ Fmt.nl)
    /\ length (stdout w') = 3%nat.
Proof.
  destruct (status_call_error_reported (H := RefPlatform) w_status_503 headers
              (json_text devices_ABC123) (decoded devices_ABC123) "ABC123" None
              "error: API request failed with status code 503"
              (sample_devices_answer _ _))
    as (w' & Hm & Hout);
    [vm_compute; reflexivity | exact sample_first_device_id
     | vm_compute; reflexivity |].
  exists w'. split; [exact Hm|]. rewrite Hout. split; reflexivity.
Defined.

Lemma status_decode_error_reported_witness :
  exists w',
    main (H := RefPlatform) w_status_not_json = (Done tt, w')
    /\ stdout w' !! 3%nat
       = Some ("Error unmarshalling /devices/{deviceId}/status response: unexpected end of JSON input"
               +:+ Fmt.nl)
    /\ length (stdout w') = 4%nat
    /\ length (sent w') = 2%nat.
Proof.
  destruct (status_decode_error_reported (H := RefPlatform) w_status_not_json
              headers (json_text devices_ABC123) (decoded devices_ABC123) "ABC123"
              (json_text "{'statusCode':100,'body':{'deviceId'")
              "unexpected end of JSON input"
              (sample_devices_answer _ _))
    as (w' & Hm & Hout & Hsent);
    [vm_compute; reflexivity | exact sample_first_device_id
     | apply sample_status_answer | vm_compute; reflexivity |].
  exists w'. split; [exact Hm|]. rewrite Hout, Hsent. repeat split.
Defined.

Lemma panic_only_on_malformed_devices_witness :
  fst (main (H := RefPlatform) w_no_body)
  = Panicked (InterfaceConversion None TMap)
  /\ exists apiHeader bodyDevices devicesResponse,
       devices_answer (H := RefPlatform) w_no_body apiHeader bodyDevices
       /\ json_Unmarshal (Platform := RefPlatform) bodyDevices = inr devicesResponse
       /\ (~ has_device_list devicesResponse
           \/ exists first, first_device_unusable devicesResponse first)
       /\ sent (snd (main (H := RefPlatform) w_no_body))
          = [mkRequest "GET" apiURLDevices apiHeader]
       /\ closed (snd (main (H := RefPlatform) w_no_body)) = 1%nat
       /\ stdout (snd (main (H := RefPlatform) w_no_body))
          = ["Response from /devices: " +:+ GoBytes.to_string bodyDevices
             +:+ Fmt.nl].
Proof.
  assert (Hf : fst (main (H := RefPlatform) w_no_body)
               = Panicked (InterfaceConversion None TMap))
    by (vm_compute; reflexivity).
  split; [exact Hf|].
  apply (panic_only_on_malformed_devices (H := RefPlatform) w_no_body
           (InterfaceConversion None TMap)
           (snd (main (H := RefPlatform) w_no_body))).
  rewrite <- Hf. apply surjective_pairing.
Defined.
